(** * omniPOS: the cart / inventory engine of [UniversalPOS]

    A shallow embedding of [src/admin-deployment/pos-system.js] (class
    [UniversalPOS]) and the properties its specification states about it.

    Conventions of the embedding.
    - The engine instance [this] is a record [State]; every method is a
      function from the state (and its arguments) to the new state, paired
      with the return value where the method returns one.
    - JavaScript numbers that hold quantities are integers ([Z]); arithmetic
      on them is exact, as it is in IEEE doubles below 2^53.  A ledger entry
      can also be [NaN] (a stock attribute that does not parse, or
      [undefined - q]), hence [jsnum].  Prices and money are IEEE binary64
      values ([float], computed by the kernel's primitive floats).
    - [this.inventory] is a JavaScript object used as a map: [gmap string
      jsnum] holds its own properties; a missing key reads [undefined],
      that is [None].  A plain object also answers for the names it inherits
      from [Object.prototype] ([inherited]): the [in] test of
      [initializeInventory] sees them ([key_in]); a read [this.inventory[id]]
      is modelled for an identifier that has an entry of its own or is not
      such a name ([own_read]), and an assignment [this.inventory[id] = v]
      as the creation or update of the own entry, which it is for every
      identifier but [__proto__].
    - Text is a string of bytes, the UTF-8 encoding of the JavaScript string.
    - [this.cart] and [this.products] are arrays: lists, updated by index.
    - The document is the list of elements in document order; an element is
      referred to (by [product.element]) through its position in that list.
    - [emit] appends to a log of events, [showNotification] records the
      notification shown; rendering of the cart drop-down
      ([updateCartDisplay], [createCartUI]) writes markup only and is left
      out, as are the listeners the engine binds.
    - What the browser decides is an argument: the time stamps, the answer
      to the [confirm] dialog, and what [fetch] settles to. *)

From Stdlib Require Import ZArith Floats Lia Ascii String.
From stdpp Require Import gmap strings list pretty.

Set Warnings "-inexact-float".
Open Scope Z_scope.

(** ** The JavaScript built-ins the engine calls *)

Module JS.

(** A number that is an integer or [NaN]. *)
Inductive jsnum := Num (z : Z) | NaN.

#[global] Instance jsnum_eq_dec : EqDecision jsnum.
Proof. solve_decision. Defined.

(** [v || 0] for [v] read from an object: [undefined], [NaN] and [0] are
    falsy. *)
Definition or_zero (v : option jsnum) : Z :=
  match v with
  | Some (Num z) => z
  | _ => 0
  end.

(** [v - q]: [undefined - q] and [NaN - q] are [NaN]. *)
Definition minus (v : option jsnum) (q : Z) : jsnum :=
  match v with
  | Some (Num z) => Num (z - q)
  | _ => NaN
  end.

(** [n || d] for a parsed integer: [NaN] and [0] are falsy. *)
Definition num_or (n : jsnum) (d : Z) : Z :=
  match n with
  | Num z => if decide (z = 0) then d else z
  | NaN => d
  end.

(** [a || d] for an attribute value: [null] and the empty string are
    falsy. *)
Definition str_or (a : option string) (d : string) : string :=
  match a with
  | Some s => if decide (s = "") then d else s
  | None => d
  end.

(** Truthiness of a string-or-null. *)
Definition truthy_str (a : option string) : bool :=
  match a with
  | Some s => negb (bool_decide (s = ""))
  | None => false
  end.

(** The names every plain object inherits from [Object.prototype]. *)
Definition Object_prototype : list string :=
  [ "constructor"; "hasOwnProperty"; "isPrototypeOf"; "propertyIsEnumerable";
    "toLocaleString"; "toString"; "valueOf"; "__proto__";
    "__defineGetter__"; "__defineSetter__";
    "__lookupGetter__"; "__lookupSetter__" ].

Definition inherited (key : string) : bool :=
  bool_decide (key ∈ Object_prototype).

(** [key in o] for a plain object [o] with the own properties given. *)
Definition key_in (key : string) (o : gmap string jsnum) : bool :=
  bool_decide (is_Some (o !! key)) || inherited key.

(** White space, [StrWhiteSpaceChar]: the characters of one byte (TAB, LF,
    VT, FF, CR, SP), ... *)
Definition is_space (c : ascii) : bool :=
  let n := N.to_nat (Ascii.N_of_ascii c) in
  ((9 <=? n)%nat && (n <=? 13)%nat) || (n =? 32)%nat.

(** ... of two bytes (U+00A0), ... *)
Definition is_space2 (c1 c2 : ascii) : bool :=
  let n1 := N.to_nat (Ascii.N_of_ascii c1) in
  let n2 := N.to_nat (Ascii.N_of_ascii c2) in
  (n1 =? 194)%nat && (n2 =? 160)%nat.

(** ... and of three bytes (U+1680, U+2000 to U+200A, U+2028, U+2029,
    U+202F, U+205F, U+3000, U+FEFF). *)
Definition is_space3 (c1 c2 c3 : ascii) : bool :=
  let n1 := N.to_nat (Ascii.N_of_ascii c1) in
  let n2 := N.to_nat (Ascii.N_of_ascii c2) in
  let n3 := N.to_nat (Ascii.N_of_ascii c3) in
  ((n1 =? 225) && (n2 =? 154) && (n3 =? 128))%nat
  || ((n1 =? 226) && (n2 =? 128)
      && (((128 <=? n3) && (n3 <=? 138)) || (n3 =? 168) || (n3 =? 169)
          || (n3 =? 175)))%nat
  || ((n1 =? 226) && (n2 =? 129) && (n3 =? 159))%nat
  || ((n1 =? 227) && (n2 =? 128) && (n3 =? 128))%nat
  || ((n1 =? 239) && (n2 =? 187) && (n3 =? 191))%nat.

(** [String.prototype.trimStart], also the white space [parseInt] and
    [parseFloat] skip. *)
Fixpoint trim_start (s : string) : string :=
  match s with
  | String c1 r1 =>
      if is_space c1 then trim_start r1
      else
        match r1 with
        | String c2 r2 =>
            if is_space2 c1 c2 then trim_start r2
            else
              match r2 with
              | String c3 r3 => if is_space3 c1 c2 c3 then trim_start r3 else s
              | EmptyString => s
              end
        | EmptyString => s
        end
  | EmptyString => s
  end.

(** [String.prototype.trimEnd]: what follows the last character that is not
    white space is dropped. *)
Fixpoint trim_end (s : string) : string :=
  match s with
  | String c r =>
      if bool_decide (trim_start s = "") then "" else String c (trim_end r)
  | EmptyString => s
  end.

(** [String.prototype.trim]. *)
Definition trim (s : string) : string := trim_end (trim_start s).

(** Value of a digit in the given radix (10 or 16). *)
Definition digit (radix : Z) (c : ascii) : option Z :=
  let n := Z.of_N (Ascii.N_of_ascii c) in
  if (48 <=? n) && (n <=? 57) then Some (n - 48)
  else if (radix =? 16) && (97 <=? n) && (n <=? 102) then Some (n - 87)
  else if (radix =? 16) && (65 <=? n) && (n <=? 70) then Some (n - 55)
  else None.

(** The longest prefix of digits: its value ([acc] when empty), how many
    digits were read, and the rest of the string. *)
Fixpoint digits (radix : Z) (s : string) (acc : Z) (len : nat)
  : Z * nat * string :=
  match s with
  | String c r =>
      match digit radix c with
      | Some d => digits radix r (acc * radix + d) (S len)
      | None => (acc, len, s)
      end
  | EmptyString => (acc, len, s)
  end.

(** An optional sign: [true] for a minus. *)
Definition sign (s : string) : bool * string :=
  match s with
  | String "-" r => (true, r)
  | String "+" r => (false, r)
  | _ => (false, s)
  end.

(** [parseInt(s)] with no radix argument: leading white space, a sign, an
    optional [0x] prefix, then the longest run of digits; [NaN] when there
    is none. *)
Definition parseInt (str : string) : jsnum :=
  let '(neg, s) := sign (trim_start str) in
  let '(radix, s) :=
    match s with
    | String "0" (String "x" r) | String "0" (String "X" r) => (16, r)
    | _ => (10, s)
    end in
  match digits radix s 0 0 with
  | (_, O, _) => NaN
  | (n, _, _) => Num (if neg then - n else n)
  end.

(** The integer [n] as a double (round to nearest even). *)
Definition of_Z (n : Z) : float := SF2Prim (binary_normalize prec emax n 0 false).

(** The double nearest to [m * 10^e], for [0 <= m].  For a negative
    exponent the quotient is taken with 64 extra bits and a sticky bit, so
    the single rounding of [binary_normalize] is the correct one. *)
Definition of_decimal (m e : Z) : float :=
  if 0 <=? e then of_Z (m * 10 ^ e)
  else
    let d := 10 ^ (- e) in
    let sh := Z.max 0 (65 + Z.log2 d - Z.log2 m) in
    let n := m * 2 ^ sh in
    let sticky := if n mod d =? 0 then 0 else 1 in
    SF2Prim (binary_normalize prec emax (2 * (n / d) + sticky) (- sh - 1) false).

Definition starts_with (p s : string) : bool :=
  bool_decide (String.substring 0 (String.length p) s = p).

(** The exponent part [e[+-]digits] of a decimal literal, 0 when absent
    or incomplete. *)
Definition exponent (s : string) : Z :=
  match s with
  | String "e" r | String "E" r =>
      let '(neg, r) := sign r in
      match digits 10 r 0 0 with
      | (_, O, _) => 0
      | (n, _, _) => if neg then - n else n
      end
  | _ => 0
  end.

(** [parseFloat(s)]: leading white space, a sign, then [Infinity] or the
    longest prefix that is a decimal literal; [NaN] when there is none. *)
Definition parseFloat (str : string) : float :=
  let '(neg, s) := sign (trim_start str) in
  let withsign x := if neg then PrimFloat.opp x else x in
  if starts_with "Infinity" s then withsign PrimFloat.infinity
  else
    let '(ip, ilen, s) := digits 10 s 0 0 in
    let '(m, flen, s) :=
      match s with
      | String "." r =>
          let '(m, flen, r') := digits 10 r ip 0 in
          match ilen, flen with
          | O, O => (ip, O, s)
          | _, _ => (m, flen, r')
          end
      | _ => (ip, O, s)
      end in
    match ilen, flen with
    | O, O => PrimFloat.nan
    | _, _ => withsign (of_decimal m (exponent s - Z.of_nat flen))
    end.

(** [isNaN] of a double. *)
Definition isNaN (x : float) : bool := PrimFloat.is_nan x.

(** [Math.round]: the nearest integer, a tie going towards +infinity;
    zeros, infinities and [NaN] are returned unchanged, and a result of
    zero keeps the sign of the argument. *)
Definition Math_round (x : float) : float :=
  match Prim2SF x with
  | S754_finite s m e =>
      if 0 <=? e then x
      else
        let d := 2 ^ (- e) in
        let v := if s then Z.neg m else Z.pos m in
        let n := (2 * v + d) / (2 * d) in
        if n =? 0 then (if s then PrimFloat.neg_zero else PrimFloat.zero) else of_Z n
  | _ => x
  end.

(** [String(n)] of an integer. *)
Definition to_string (n : Z) : string := pretty n.

End JS.

Export JS.

(** ** Data model *)

(** The three affordances [enhanceProductElement] looks for (or creates)
    inside a product element. *)
Record Button := { button_text : string; button_disabled : bool }.
Record QuantityInput := { input_value : string; input_max : option string }.
Record StockDisplay := { stock_text : string; stock_className : string }.

(** An element of the document: its [data-pos-*] attributes ([None] when the
    attribute is absent), the text of its own content, and the affordances.
    The affordances are the last children, in the order in which
    [enhanceProductElement] appends them. *)
Record Element := {
  data_pos_product : option string;
  data_pos_name : option string;
  data_pos_price : option string;
  data_pos_inventory : option string;
  data_pos_category : option string;
  data_pos_description : option string;
  data_pos_image : option string;
  data_pos_sku : option string;
  own_text : string;
  pos_product_class : bool;
  add_button : option Button;
  quantity_input : option QuantityInput;
  stock_display : option StockDisplay
}.

(** [element.textContent]: the text of every descendant, in document order
    (an input has none). *)
Definition textContent (e : Element) : string :=
  own_text e
  +:+ from_option button_text "" (add_button e)
  +:+ from_option stock_text "" (stock_display e).

(** A scanned product; [product_element] is the position of its element in
    the document. *)
Record Product := {
  product_id : string;
  product_name : string;
  product_price : float;
  product_inventory : jsnum;
  product_category : string;
  product_description : string;
  product_image : string;
  product_sku : string;
  product_element : nat
}.

(** A cart line item. *)
Record CartItem := {
  item_id : string;
  item_name : string;
  item_price : float;
  item_quantity : Z;
  item_sku : string;
  item_image : string
}.

(** The options the modelled methods read. *)
Record Options := {
  apiEndpoint : option string;
  taxRate : float;
  shippingCost : float;
  notifications : bool
}.

Record Totals := {
  subtotal : float;
  tax : float;
  shipping : float;
  total : float;
  itemCount : Z
}.

Record CheckoutData := {
  checkout_cart : list CartItem;
  checkout_totals : Totals;
  checkout_timestamp : string
}.

Record Order := {
  order_data : CheckoutData;
  order_id : string;
  order_status : string
}.

(** The custom events dispatched on the document, with their [detail]. *)
Inductive Event :=
| ProductsScanned (products : list Product)
| ItemAdded (productId : string) (quantity : Z) (cart : list CartItem)
| ItemRemoved (productId : string) (quantity : Z) (cart : list CartItem)
| CartCleared
| CheckoutStarted (data : CheckoutData)
| CheckoutCompleted (data : CheckoutData)
| ApiSuccess (result : string)
| ApiError (error : string).

(** [localStorage]: the two blobs written by [saveData] and the order list
    written by [completeCheckout]. *)
Record Storage := {
  stored_cart : option (list CartItem);
  stored_inventory : option (gmap string jsnum);
  stored_orders : list Order
}.

(** The engine instance together with the part of the browser it acts on. *)
Record State := {
  options : Options;
  cart : list CartItem;
  inventory : gmap string jsnum;
  products : list Product;
  document : list Element;
  events : list Event;
  notification : option (string * string);
  storage : Storage
}.

Definition with_cart (c : list CartItem) (s : State) : State :=
  {| options := options s; cart := c; inventory := inventory s;
     products := products s; document := document s; events := events s;
     notification := notification s; storage := storage s |}.

Definition with_inventory (inv : gmap string jsnum) (s : State) : State :=
  {| options := options s; cart := cart s; inventory := inv;
     products := products s; document := document s; events := events s;
     notification := notification s; storage := storage s |}.

Definition with_products (ps : list Product) (s : State) : State :=
  {| options := options s; cart := cart s; inventory := inventory s;
     products := ps; document := document s; events := events s;
     notification := notification s; storage := storage s |}.

Definition with_document (d : list Element) (s : State) : State :=
  {| options := options s; cart := cart s; inventory := inventory s;
     products := products s; document := d; events := events s;
     notification := notification s; storage := storage s |}.

Definition with_events (evs : list Event) (s : State) : State :=
  {| options := options s; cart := cart s; inventory := inventory s;
     products := products s; document := document s; events := evs;
     notification := notification s; storage := storage s |}.

Definition with_notification (n : option (string * string)) (s : State) : State :=
  {| options := options s; cart := cart s; inventory := inventory s;
     products := products s; document := document s; events := events s;
     notification := n; storage := storage s |}.

Definition with_storage (st : Storage) (s : State) : State :=
  {| options := options s; cart := cart s; inventory := inventory s;
     products := products s; document := document s; events := events s;
     notification := notification s; storage := st |}.

(** Sequencing of state transformers, in the order of the source's
    statements. *)
Notation "s |> f" := (f s) (at level 45, left associativity, only parsing).

(** ** Persistence, events, notifications *)

(** [saveData]: both blobs are rewritten from the in-memory state.  What is
    recorded is the value handed to [JSON.stringify]; a [setItem] that
    throws is caught by the source and leaves the blob as it was, which is
    not modelled: no statement below reads [stored_cart] or
    [stored_inventory] after a write. *)
Definition saveData (s : State) : State :=
  with_storage {| stored_cart := Some (cart s);
                  stored_inventory := Some (inventory s);
                  stored_orders := stored_orders (storage s) |} s.

(** [emit]: the event is dispatched; the log keeps it with the detail it had
    at that moment. *)
Definition emit (ev : Event) (s : State) : State :=
  with_events (events s ++ [ev]) s.

(** [showNotification]: nothing when notifications are off; otherwise the
    new notification replaces the one on display. *)
Definition showNotification (message type : string) (s : State) : State :=
  if notifications (options s) then with_notification (Some (message, type)) s
  else s.

(** ** Presentation of one product element *)

Definition with_add_button (b : option Button) (e : Element) : Element :=
  {| data_pos_product := data_pos_product e; data_pos_name := data_pos_name e;
     data_pos_price := data_pos_price e; data_pos_inventory := data_pos_inventory e;
     data_pos_category := data_pos_category e;
     data_pos_description := data_pos_description e;
     data_pos_image := data_pos_image e; data_pos_sku := data_pos_sku e;
     own_text := own_text e; pos_product_class := pos_product_class e;
     add_button := b; quantity_input := quantity_input e;
     stock_display := stock_display e |}.

Definition with_quantity_input (q : option QuantityInput) (e : Element) : Element :=
  {| data_pos_product := data_pos_product e; data_pos_name := data_pos_name e;
     data_pos_price := data_pos_price e; data_pos_inventory := data_pos_inventory e;
     data_pos_category := data_pos_category e;
     data_pos_description := data_pos_description e;
     data_pos_image := data_pos_image e; data_pos_sku := data_pos_sku e;
     own_text := own_text e; pos_product_class := pos_product_class e;
     add_button := add_button e; quantity_input := q;
     stock_display := stock_display e |}.

Definition with_stock_display (d : option StockDisplay) (e : Element) : Element :=
  {| data_pos_product := data_pos_product e; data_pos_name := data_pos_name e;
     data_pos_price := data_pos_price e; data_pos_inventory := data_pos_inventory e;
     data_pos_category := data_pos_category e;
     data_pos_description := data_pos_description e;
     data_pos_image := data_pos_image e; data_pos_sku := data_pos_sku e;
     own_text := own_text e; pos_product_class := pos_product_class e;
     add_button := add_button e; quantity_input := quantity_input e;
     stock_display := d |}.

Definition with_pos_product_class (e : Element) : Element :=
  {| data_pos_product := data_pos_product e; data_pos_name := data_pos_name e;
     data_pos_price := data_pos_price e; data_pos_inventory := data_pos_inventory e;
     data_pos_category := data_pos_category e;
     data_pos_description := data_pos_description e;
     data_pos_image := data_pos_image e; data_pos_sku := data_pos_sku e;
     own_text := own_text e; pos_product_class := true;
     add_button := add_button e; quantity_input := quantity_input e;
     stock_display := stock_display e |}.

(** [this.products.find(p => p.id === productId)]: the first match. *)
Definition find_product (productId : string) (s : State) : option Product :=
  snd <$> list_find (λ p, product_id p = productId) (products s).

(** [this.inventory[productId] || 0], for the product's own entry or none. *)
Definition availableStock (productId : string) (s : State) : Z :=
  or_zero (inventory s !! productId).

(** The text and class [updateStockDisplay] writes for a stock level. *)
Definition render_stock (stock : Z) : StockDisplay :=
  {| stock_text := "Stock: " +:+ to_string stock;
     stock_className :=
       "pos-stock " +:+
       (if decide (stock = 0) then "pos-out-of-stock"
        else if decide (stock < 5) then "pos-low-stock" else "") |}.

(** [updateStockDisplay]: rewrites the stock display of the element of the
    first product with this id, when there is such a product and it has a
    display. *)
Definition updateStockDisplay (productId : string) (s : State) : State :=
  match find_product productId s with
  | None => s
  | Some product =>
      let stock := availableStock productId s in
      let render e :=
        match stock_display e with
        | Some _ => with_stock_display (Some (render_stock stock)) e
        | None => e
        end in
      with_document (alter render (product_element product) (document s)) s
  end.

(** [updateAddButton]: enables or disables the button against the quantity
    asked for in the input, caps the input at the available stock. *)
Definition updateAddButton (productId : string) (s : State) : State :=
  match find_product productId s with
  | None => s
  | Some product =>
      let stock := availableStock productId s in
      let render e :=
        match add_button e, quantity_input e with
        | Some _, Some input =>
            let requestedQuantity := num_or (parseInt (input_value input)) 1 in
            let isAvailable := bool_decide (requestedQuantity <= stock) in
            e |> with_add_button
                   (Some {| button_text :=
                              if isAvailable then "Add to Cart" else "Out of Stock";
                            button_disabled := negb isAvailable |})
              |> with_quantity_input
                   (Some {| input_value :=
                              if decide (stock < requestedQuantity)
                              then to_string stock else input_value input;
                            input_max := Some (to_string stock) |})
        | _, _ => e
        end in
      with_document (alter render (product_element product) (document s)) s
  end.

(** [updateStockDisplays] and [updateAddButtons]: one call per product. *)
Definition updateStockDisplays (s : State) : State :=
  foldl (λ s p, updateStockDisplay (product_id p) s) s (products s).

Definition updateAddButtons (s : State) : State :=
  foldl (λ s p, updateAddButton (product_id p) s) s (products s).

(** ** Catalog scanner *)

(** [parseProductElement]: [None] for the [null] it returns when the
    identifier is missing or empty, or the price is not a number. *)
Definition parseProductElement (element : Element) (position : nat)
  : option Product :=
  match data_pos_product element with
  | None => None
  | Some id =>
      let name :=
        str_or (data_pos_name element)
               (str_or (Some (trim (textContent element))) ("Product " +:+ id)) in
      let price := parseFloat (str_or (data_pos_price element) "0") in
      let inventory := parseInt (str_or (data_pos_inventory element) "999") in
      if bool_decide (id = "") || isNaN price then None
      else Some {| product_id := id;
                   product_name := name;
                   product_price := price;
                   product_inventory := inventory;
                   product_category := str_or (data_pos_category element) "general";
                   product_description := str_or (data_pos_description element) "";
                   product_image := str_or (data_pos_image element) "";
                   product_sku := str_or (data_pos_sku element) id;
                   product_element := position |}
  end.

(** [initializeInventory]: writes the declared stock only when
    [product.id in this.inventory] is false. *)
Definition initializeInventory (product : Product) (s : State) : State :=
  if key_in (product_id product) (inventory s) then s
  else with_inventory
         (<[product_id product := product_inventory product]> (inventory s)) s.

(** The affordances [enhanceProductElement] creates when the element has
    none. *)
Definition new_button : Button :=
  {| button_text := "Add to Cart"; button_disabled := false |}.
Definition new_quantity_input : QuantityInput :=
  {| input_value := "1"; input_max := None |}.
Definition new_stock_display : StockDisplay :=
  {| stock_text := ""; stock_className := "pos-stock" |}.

Definition ensure {A} (new : A) (o : option A) : option A :=
  match o with Some x => Some x | None => Some new end.

(** [enhanceProductElement]: marks the element, makes sure it has the three
    affordances, then refreshes the stock text and the button through the
    product list.  The click and change listeners it binds are not part of
    the state.  A missing quantity input is inserted before the add button,
    which succeeds when the button is a child of the element, as the one
    the engine appends is; see [enhanceable]. *)
Definition enhanceProductElement (position : nat) (product : Product)
  (s : State) : State :=
  let enhance e :=
    e |> with_pos_product_class
      |> (λ e, with_add_button (ensure new_button (add_button e)) e)
      |> (λ e, with_quantity_input (ensure new_quantity_input (quantity_input e)) e)
      |> (λ e, with_stock_display (ensure new_stock_display (stock_display e)) e) in
  s |> with_document (alter enhance position (document s))
    |> updateStockDisplay (product_id product)
    |> updateAddButton (product_id product).

(** [document.querySelectorAll('[data-pos-product]')]: the positions of the
    elements that carry the attribute. *)
Definition productElements (d : list Element) : list nat :=
  filter (λ i, is_Some (d !! i ≫= data_pos_product)) (seq 0 (length d)).

(** The body of the [forEach] of [scanProducts]. *)
Definition scanElement (s : State) (position : nat) : State :=
  match document s !! position with
  | None => s
  | Some element =>
      match parseProductElement element position with
      | Some product =>
          s |> with_products (products s ++ [product])
            |> initializeInventory product
            |> enhanceProductElement position product
      | None => s
      end
  end.

(** [scanProducts]: the product list is rebuilt from the document. *)
Definition scanProducts (s : State) : State :=
  let s := foldl scanElement (with_products [] s) (productElements (document s)) in
  emit (ProductsScanned (products s)) s.

(** ** Cart engine *)

Definition with_quantity (q : Z) (item : CartItem) : CartItem :=
  {| item_id := item_id item; item_name := item_name item;
     item_price := item_price item; item_quantity := q;
     item_sku := item_sku item; item_image := item_image item |}.

(** [this.cart.find(item => item.id === productId)] together with
    [findIndex]: the first matching line item and its position. *)
Definition find_item (productId : string) (s : State) : option (nat * CartItem) :=
  list_find (λ item, item_id item = productId) (cart s).

(** The line item [addToCart] pushes for a product. *)
Definition new_item (productId : string) (product : Product) (quantity : Z)
  : CartItem :=
  {| item_id := productId; item_name := product_name product;
     item_price := product_price product; item_quantity := quantity;
     item_sku := product_sku product; item_image := product_image product |}.

(** The tail of [addToCart], once the cart has been updated: the ledger is
    decremented, the state saved, the displays refreshed, the event sent. *)
Definition reserve (productId : string) (product : Product) (quantity : Z)
  (s : State) : State :=
  s |> with_inventory
         (<[productId := minus (inventory s !! productId) quantity]> (inventory s))
    |> saveData
    |> updateStockDisplay productId
    |> updateAddButton productId
    |> showNotification (product_name product +:+ " added to cart") "success"
    |> (λ s, emit (ItemAdded productId quantity (cart s)) s).

(** [addToCart(productId, quantity)]; the source's default [quantity = 1] is
    [addToCart productId 1]. *)
Definition addToCart (productId : string) (quantity : Z) (s : State)
  : bool * State :=
  match find_product productId s with
  | None => (false, showNotification "Product not found" "error" s)
  | Some product =>
      let availableStock := availableStock productId s in
      if decide (availableStock < quantity)
      then (false, showNotification "Insufficient stock" "error" s)
      else
        match find_item productId s with
        | Some (index, existingItem) =>
            let totalQuantity := item_quantity existingItem + quantity in
            if decide (availableStock < totalQuantity)
            then (false,
                  showNotification "Not enough stock for requested quantity"
                                   "error" s)
            else
              (true,
               s |> with_cart
                      (<[index := with_quantity totalQuantity existingItem]> (cart s))
                 |> reserve productId product quantity)
        | None =>
            (true,
             s |> with_cart (cart s ++ [new_item productId product quantity])
               |> reserve productId product quantity)
        end
  end.

(** The optional argument of [removeFromCart] when it is truthy: [null] and
    [0] are falsy. *)
Definition truthy (quantity : option Z) : option Z :=
  match quantity with
  | Some q => if decide (q = 0) then None else Some q
  | None => None
  end.

(** [removeFromCart(productId, quantity = null)]. *)
Definition removeFromCart (productId : string) (quantity : option Z) (s : State)
  : bool * State :=
  match find_item productId s with
  | None => (false, s)
  | Some (cartItemIndex, cartItem) =>
      let removeQuantity := default (item_quantity cartItem) (truthy quantity) in
      let inventory' :=
        <[productId := Num (availableStock productId s + removeQuantity)]>
          (inventory s) in
      let cart' :=
        match truthy quantity with
        | Some q =>
            if decide (q < item_quantity cartItem)
            then <[cartItemIndex := with_quantity (item_quantity cartItem - q) cartItem]>
                   (cart s)
            else delete cartItemIndex (cart s)
        | None => delete cartItemIndex (cart s)
        end in
      (true,
       s |> with_inventory inventory'
         |> with_cart cart'
         |> saveData
         |> updateStockDisplays
         |> updateAddButtons
         |> (λ s, emit (ItemRemoved productId removeQuantity (cart s)) s))
  end.

(** The [forEach] of [clearCart]: each line item's quantity goes back to the
    ledger. *)
Definition release_all (items : list CartItem) (inv : gmap string jsnum)
  : gmap string jsnum :=
  foldl (λ inv item,
           <[item_id item := Num (or_zero (inv !! item_id item) + item_quantity item)]>
             inv)
        inv items.

(** [clearCart]. *)
Definition clearCart (s : State) : State :=
  s |> with_inventory (release_all (cart s) (inventory s))
    |> with_cart []
    |> saveData
    |> updateStockDisplays
    |> updateAddButtons
    |> emit CartCleared.

(** [setInventory(productId, quantity)]. *)
Definition setInventory (productId : string) (quantity : Z) (s : State) : State :=
  s |> with_inventory (<[productId := Num quantity]> (inventory s))
    |> saveData
    |> updateStockDisplay productId
    |> updateAddButton productId.

(** ** Totals *)

(** [Math.round(x * 100) / 100]. *)
Definition round2 (x : float) : float := (Math_round (x * 100) / 100)%float.

(** The unrounded figures of [calculateTotals]. *)
Definition raw_subtotal (items : list CartItem) : float :=
  foldl (λ sum item, (sum + item_price item * of_Z (item_quantity item))%float)
        0%float items.

Definition raw_tax (items : list CartItem) (rate : float) : float :=
  (raw_subtotal items * rate)%float.

Definition raw_total (items : list CartItem) (rate cost : float) : float :=
  (raw_subtotal items + raw_tax items rate + cost)%float.

(** [calculateTotals]. *)
Definition calculateTotals (s : State) : Totals :=
  let subtotal := raw_subtotal (cart s) in
  let tax := (subtotal * taxRate (options s))%float in
  let shipping := shippingCost (options s) in
  let total := (subtotal + tax + shipping)%float in
  {| subtotal := round2 subtotal;
     tax := round2 tax;
     shipping := round2 shipping;
     total := round2 total;
     itemCount := foldl (λ sum item, sum + item_quantity item) 0 (cart s) |}.

(** ** Checkout *)

(** What [fetch] and [response.json()] settle to: a rejected request, or a
    response with its [ok] flag, its status, and its body when the body
    parses. *)
Inductive FetchOutcome :=
| NetworkError (message : string)
| Response (ok : bool) (status : Z) (json : option string).

(** The submission is a failure when the request is rejected, the status is
    not a success, or the body of a successful response does not parse. *)
Definition failed (outcome : FetchOutcome) : bool :=
  match outcome with
  | Response true _ (Some _) => false
  | _ => true
  end.

(** [completeCheckout]; [orderId] is [Date.now().toString()]. *)
Definition completeCheckout (checkoutData : CheckoutData) (orderId : string)
  (s : State) : State :=
  let order := {| order_data := checkoutData; order_id := orderId;
                  order_status := "completed" |} in
  s |> with_storage
         {| stored_cart := stored_cart (storage s);
            stored_inventory := stored_inventory (storage s);
            stored_orders := stored_orders (storage s) ++ [order] |}
    |> clearCart
    |> showNotification "Order completed successfully!" "success"
    |> emit (CheckoutCompleted checkoutData).

(** [showCheckoutSummary]; [confirmed] is the answer to the [confirm]
    dialog. *)
Definition showCheckoutSummary (checkoutData : CheckoutData) (confirmed : bool)
  (orderId : string) (s : State) : State :=
  if confirmed then completeCheckout checkoutData orderId s else s.

(** [submitToAPI] from the point where [await fetch(...)] settles, on the
    state the engine has at that moment; [checkoutData] holds the cart as
    it was submitted, which is the cart of the engine as long as no call is
    made on it while the request is pending.  For a body that does not
    parse, ["invalid JSON"] stands for the message of the error
    [response.json()] rejects with. *)
Definition submitToAPI (checkoutData : CheckoutData) (outcome : FetchOutcome)
  (orderId : string) (s : State) : State :=
  let catch message :=
    s |> showNotification "Checkout failed. Please try again." "error"
      |> emit (ApiError message) in
  match outcome with
  | NetworkError message => catch message
  | Response true _ (Some result) =>
      s |> emit (ApiSuccess result) |> completeCheckout checkoutData orderId
  | Response true _ None => catch "invalid JSON"
  | Response false status _ =>
      catch ("API request failed: " +:+ to_string status)
  end.

(** How a call of [startCheckout] ends: refused on an empty cart, handed to
    the confirmation dialog, or waiting for the endpoint with the request
    body it sent. *)
Inductive Checkout :=
| Refused
| Summarised
| Submitted (checkoutData : CheckoutData).

(** [startCheckout]; [timestamp] is [new Date().toISOString()], [confirmed]
    and [orderId] are read only on the local path. *)
Definition startCheckout (timestamp : string) (confirmed : bool)
  (orderId : string) (s : State) : Checkout * State :=
  match cart s with
  | [] => (Refused, showNotification "Cart is empty" "error" s)
  | _ =>
      let checkoutData :=
        {| checkout_cart := cart s; checkout_totals := calculateTotals s;
           checkout_timestamp := timestamp |} in
      let s := emit (CheckoutStarted checkoutData) s in
      if truthy_str (apiEndpoint (options s))
      then (Submitted checkoutData, s)
      else (Summarised, showCheckoutSummary checkoutData confirmed orderId s)
  end.

(** ** The state of a new instance, and the running example *)

(** The constructor's defaults for the options read here. *)
Definition default_options : Options :=
  {| apiEndpoint := None; taxRate := 0; shippingCost := 0; notifications := true |}.

(** A new instance on a document and an empty [localStorage], before the
    first scan. *)
Definition new_state (opts : Options) (d : list Element) : State :=
  {| options := opts; cart := []; inventory := ∅; products := [];
     document := d; events := []; notification := None;
     storage := {| stored_cart := None; stored_inventory := None;
                   stored_orders := [] |} |}.

(** An element that declares a product, with no affordance yet. *)
Definition product_element_of (id : string) (name : option string)
  (price stock : string) (text : string) : Element :=
  {| data_pos_product := Some id; data_pos_name := name;
     data_pos_price := Some price; data_pos_inventory := Some stock;
     data_pos_category := None; data_pos_description := None;
     data_pos_image := None; data_pos_sku := None;
     own_text := text; pos_product_class := false;
     add_button := None; quantity_input := None; stock_display := None |}.

(** The product of the specification's scenarios: "mug-1", price 10.00,
    stock 5. *)
Definition mug : Element :=
  product_element_of "mug-1" (Some "Mug") "10.00" "5" "A sturdy mug".

Definition shop : State := scanProducts (new_state default_options [mug]).

(** The product the scan makes of it. *)
Definition mug_product : Product :=
  {| product_id := "mug-1"; product_name := "Mug"; product_price := 10;
     product_inventory := Num 5; product_category := "general";
     product_description := ""; product_image := ""; product_sku := "mug-1";
     product_element := 0 |}.

(** ** Notions and scenarios the statements use *)

(** [presentation_only s s']: [s'] differs from [s] in the document at
    most. *)
Definition presentation_only (s s' : State) : Prop :=
  options s' = options s /\ cart s' = cart s /\ inventory s' = inventory s
  /\ products s' = products s /\ events s' = events s
  /\ notification s' = notification s /\ storage s' = storage s.

(** The state of the scenario after [addToCart("mug-1", 3)]: one line item
    of quantity 3, two mugs left in the ledger. *)
Definition shop_with_3 : State := (addToCart "mug-1" 3 shop).2.

(** The scenario after [addToCart("mug-1", 4)]: 4 in the cart, 1 in the
    ledger. *)
Definition shop_with_4 : State := (addToCart "mug-1" 4 shop).2.



(** The calls a client can make on the cart. *)
Inductive Call :=
| AddToCart (productId : string) (quantity : Z)
| RemoveFromCart (productId : string) (quantity : option Z)
| ClearCart.

Definition call (s : State) (c : Call) : State :=
  match c with
  | AddToCart productId quantity => (addToCart productId quantity s).2
  | RemoveFromCart productId quantity => (removeFromCart productId quantity s).2
  | ClearCart => clearCart s
  end.

Definition run (calls : list Call) (s : State) : State := foldl call s calls.

(** The quantity of the product's line item, 0 when it has none. *)
Definition line_quantity (productId : string) (s : State) : Z :=
  from_option (λ found, item_quantity found.2) 0 (find_item productId s).

(** The sum of the quantities of the line items of a product. *)
Definition held (productId : string) (items : list CartItem) : Z :=
  foldr (λ item sum,
           if decide (item_id item = productId) then item_quantity item + sum
           else sum)
        0 items.

(** A removal asks for no more than the line item holds (or for all of it,
    with no quantity or 0). *)
Definition within_held (c : Call) (s : State) : Prop :=
  match c with
  | RemoveFromCart productId (Some q) =>
      q = 0 \/ q <= line_quantity productId s \/ find_item productId s = None
  | _ => True
  end.

#[global] Instance within_held_dec c s : Decision (within_held c s).
Proof. destruct c as [| ? [q|] |]; simpl; apply _. Defined.



(** The figures of [calculateTotals] read the prices and quantities of the
    line items only. *)
Definition priced (s : State) : list (float * Z) :=
  (λ item, (item_price item, item_quantity item)) <$> cart s.

(** The totals of the specification's scenario. *)
Definition scenario_totals : Totals :=
  {| subtotal := 25; tax := 2; shipping := 9.99; total := 36.99; itemCount := 3 |}.

(** The rounding rule in the specification's words, to be compared with
    [Math_round]: [y] is the integer nearest to [x], a tie going up.  For a
    double [x = v * 2^e] that has a fractional part ([e < 0]) that integer
    is the [n] with [n - 1/2 <= x < n + 1/2], here with both sides scaled
    by [2 * 2^(-e)]; a rounding to zero keeps the sign of [x].  A double
    with [0 <= e] is an integer and, like a zero, an infinity and [NaN], is
    its own rounding. *)
Definition rounds_half_up (x y : float) : Prop :=
  match Prim2SF x with
  | S754_finite s m e =>
      if 0 <=? e then y = x
      else
        exists n : Z,
          (2 * n - 1) * 2 ^ (- e) <= 2 * (if s then Z.neg m else Z.pos m)
          /\ 2 * (if s then Z.neg m else Z.pos m) < (2 * n + 1) * 2 ^ (- e)
          /\ y = (if n =? 0
                  then (if s then PrimFloat.neg_zero else PrimFloat.zero)
                  else of_Z n)
  | _ => y = x
  end.

(** A figure rounded to two decimal places: one hundredth of the rounding
    of one hundred times the unrounded figure. *)
Definition rounded_to_cents (raw figure : float) : Prop :=
  exists r, rounds_half_up (raw * 100)%float r /\ figure = (r / 100)%float.

(** The totals of three items at 19.99, taxed at 8.25%, shipped for 4.995:
    the unrounded figures are 59.97, 4.947525, 4.995 and 69.912525. *)
Definition rounding_totals : Totals :=
  {| subtotal := 59.97; tax := 4.95; shipping := 5; total := 69.91;
     itemCount := 3 |}.

(** The scenario with an endpoint configured and 3 mugs in the cart. *)
Definition remote_shop : State :=
  (addToCart "mug-1" 3
     (scanProducts
        (new_state {| apiEndpoint := Some "https://example.test/orders";
                      taxRate := 0.08; shippingCost := 9.99;
                      notifications := true |} [mug]))).2.

(** What an element declares: its attributes and own text, without the
    affordances and the class the engine adds. *)
Definition declared (e : Element) : Element :=
  {| data_pos_product := data_pos_product e; data_pos_name := data_pos_name e;
     data_pos_price := data_pos_price e; data_pos_inventory := data_pos_inventory e;
     data_pos_category := data_pos_category e;
     data_pos_description := data_pos_description e;
     data_pos_image := data_pos_image e; data_pos_sku := data_pos_sku e;
     own_text := own_text e; pos_product_class := false;
     add_button := None; quantity_input := None; stock_display := None |}.

(** A product element is named when it carries a non-empty
    [data-pos-name]. *)
Definition named (e : Element) : Prop :=
  is_Some (data_pos_product e) -> truthy_str (data_pos_name e) = true.

#[global] Instance named_dec e : Decision (named e).
Proof. unfold named. apply _. Defined.





(** A second product, for a document of two. *)
Definition kettle : Element :=
  product_element_of "kettle-1" (Some "Kettle") "25.50" "2" "An electric kettle".

(** ** Calls for positive quantities, and the administrative callers *)

(** The line item of a product, without its position. *)
Definition line (productId : string) (s : State) : option CartItem :=
  snd <$> find_item productId s.

(** Calls that ask for a positive quantity: an add of at least 1, a removal
    of 1 or of the whole line, a clear.  The buttons of the rendered cart
    make such calls ([+] is [addToCart(productId, 1)], [-] is
    [removeFromCart(productId, 1)], remove is [removeFromCart(productId)]);
    the add button of a product element passes on
    [parseInt(quantityInput.value) || 1], which is such a call only while
    the field holds a number above 0. *)
Definition positive_call (c : Call) : Prop :=
  match c with
  | AddToCart _ quantity => 1 <= quantity
  | RemoveFromCart _ quantity => quantity = None \/ quantity = Some 1
  | ClearCart => True
  end.

#[global] Instance positive_call_dec c : Decision (positive_call c).
Proof. destruct c; simpl; apply _. Defined.

(** The read [this.inventory[productId]] returns the entry the ledger has
    for the identifier, or [undefined] when it has none: the identifier has
    an entry of its own, or names no member of [Object.prototype]. *)
Definition own_read (productId : string) (s : State) : Prop :=
  is_Some (inventory s !! productId) \/ inherited productId = false.

#[global] Instance own_read_dec productId s : Decision (own_read productId s).
Proof. unfold own_read. apply _. Defined.

(** [applyBulkUpdate] of the admin dashboard ([src/admin.js]), with the POS
    instance present.  [action], [quantityInput] and [category] are the
    values of the three form fields.  The new stock of a product is computed
    from the copy of the ledger taken before the loop ([getInventory()]). *)
Definition bulk_stock (action : string) (currentStock quantity : Z) : option Z :=
  if decide (action = "add") then Some (currentStock + quantity)
  else if decide (action = "subtract") then Some (Z.max 0 (currentStock - quantity))
  else if decide (action = "set") then Some quantity
  else None.

(** The products the loop of [applyBulkUpdate] does not skip. *)
Definition bulk_selected (category : string) (product : Product) : bool :=
  negb (negb (bool_decide (category = ""))
        && negb (bool_decide (product_category product = category))).

(** One step of the loop of [applyBulkUpdate]; [inventory] is the copy of
    the ledger taken before the loop, [acc] the count of updated products
    and the state.  The current stock is that of an [own_read]. *)
Definition bulk_update (action category : string) (quantity : Z)
  (inventory : gmap string jsnum) (acc : nat * State) (product : Product)
  : nat * State :=
  if bulk_selected category product then
    let currentStock := or_zero (inventory !! product_id product) in
    match bulk_stock action currentStock quantity with
    | Some newStock => (S acc.1, setInventory (product_id product) newStock acc.2)
    | None => acc
    end
  else acc.

(** The result is the number of products updated, [None] when the
    parameters are rejected. *)
Definition applyBulkUpdate (action quantityInput category : string) (s : State)
  : option nat * State :=
  let quantity := num_or (parseInt quantityInput) 0 in
  if bool_decide (action = "") || bool_decide (quantity < 0) then (None, s)
  else
    let r := foldl (bulk_update action category quantity (inventory s)) (O, s)
                   (products s) in
    (Some r.1, r.2).

(** A product of the list with this identifier passes the category
    filter. *)
Definition bulk_targets (category productId : string) (s : State) : Prop :=
  Exists (λ product, product_id product = productId
                     /\ bulk_selected category product = true) (products s).

(** [clearAllData] of the admin dashboard: the three blobs are removed from
    [localStorage], then the cart is cleared through the engine. *)
Definition clearAllData (confirmed : bool) (s : State) : State :=
  if confirmed then
    s |> with_storage {| stored_cart := None; stored_inventory := None;
                         stored_orders := [] |}
      |> clearCart
  else s.

(** A shop of two products, with 3 mugs and 1 kettle in the cart. *)
Definition shelf : State :=
  run [AddToCart "mug-1" 3; AddToCart "kettle-1" 1]
      (scanProducts (new_state default_options [mug; kettle])).

(** A product element that [enhanceProductElement] can complete whatever
    the place of its add button: one that has a quantity input if it has an
    add button, so that no input is inserted before a button of the
    page. *)
Definition enhanceable (e : Element) : Prop :=
  is_Some (data_pos_product e) -> is_Some (add_button e) ->
  is_Some (quantity_input e).

#[global] Instance enhanceable_dec e : Decision (enhanceable e).
Proof. unfold enhanceable. apply _. Defined.

(** The invariant of the loop of [scanProducts] on the product list, for the
    declarations [d] of the document: identifier, price, ledger key and
    element of a listed product. *)
Definition listed (d : list Element) (s : State) (product : Product) : Prop :=
  product_id product <> ""
  /\ isNaN (product_price product) = false
  /\ key_in (product_id product) (inventory s) = true
  /\ exists e, d !! product_element product = Some e
               /\ data_pos_product e = Some (product_id product).

(** The invariant of the loop of [scanProducts] on the ledger entry of an
    identifier the ledger did not have: it is the stock of the product
    [find] returns for it, and there is none for an identifier that names a
    member of [Object.prototype]. *)
Definition first_declaration (productId : string) (s : State) : Prop :=
  if inherited productId then inventory s !! productId = None
  else
    match find_product productId s with
    | Some product => inventory s !! productId = Some (product_inventory product)
    | None => inventory s !! productId = None
    end.

(** * Properties *)

(** ** The built-ins and the running example, evaluated *)

Example parseInt_examples :
  parseInt "5" = Num 5 /\ parseInt " -12px" = Num (-12) /\ parseInt "0x1F" = Num 31
  /\ parseInt "abc" = NaN /\ parseInt "" = NaN /\ parseInt "999" = Num 999.
Proof. repeat split; reflexivity. Qed.

Example parseFloat_examples :
  parseFloat "10.00" = 10%float /\ parseFloat "9.99" = 9.99%float
  /\ parseFloat "0.08" = 0.08%float /\ parseFloat ".5" = 0.5%float
  /\ parseFloat "5." = 5%float /\ parseFloat "-1.5e3x" = (-1500)%float
  /\ parseFloat "0.1" = 0.1%float /\ parseFloat "1e-7" = 1e-7%float
  /\ parseFloat "12abc" = 12%float /\ parseFloat "0" = 0%float
  /\ isNaN (parseFloat "abc") = true /\ isNaN (parseFloat ".") = true
  /\ isNaN (parseFloat "") = true.
Proof. repeat split; reflexivity. Qed.

Example Math_round_examples :
  Math_round 2.5 = 3%float /\ Math_round (-2.5) = (-2)%float
  /\ Math_round 2.4 = 2%float /\ Math_round 0.5 = 1%float
  /\ Math_round 0.49999999999999994 = 0%float /\ Math_round 3699 = 3699%float.
Proof. repeat split; reflexivity. Qed.

Example trim_examples : trim "  Mug
 " = "Mug" /\ trim "" = "" /\ trim " a b " = "a b".
Proof. repeat split; reflexivity. Qed.

(** White space beyond ASCII: a no-break space (bytes 194 160) and an em
    space (bytes 226 128 131) are trimmed and skipped, the second byte of
    [a] with a grave accent (bytes 195 160) is not. *)
Example white_space_examples :
  trim (String "194" (String "160" "Mug")
        +:+ String "226" (String "128" (String "131" ""))) = "Mug"
  /\ parseInt (String "194" (String "160" "5")) = Num 5
  /\ parseFloat (String "227" (String "128" (String "128" "2.5"))) = 2.5%float
  /\ trim (String "195" (String "160" "")) = String "195" (String "160" "").
Proof. repeat split; vm_compute; reflexivity. Qed.

(** The [in] test of a plain object. *)
Example key_in_examples :
  key_in "mug-1" ∅ = false /\ key_in "mug-1" {[ "mug-1" := Num 5 ]} = true
  /\ key_in "constructor" ∅ = true /\ key_in "toString" ∅ = true.
Proof. repeat split; vm_compute; reflexivity. Qed.

Example shop_state :
  products shop = [mug_product] /\ cart shop = []
  /\ inventory shop = {["mug-1" := Num 5]}
  /\ textContent <$> document shop = ["A sturdy mugAdd to CartStock: 5"].
Proof. vm_compute. repeat split. Qed.

(** The remaining scenarios of the specification and the README's test:
    [clearCart] gives the 3 mugs back; after [setInventory("mug-1", 1)] an
    add of 2 is refused; a confirmed local checkout records one order and
    clears the cart, which returns the 3 mugs to the ledger. *)
Example clearCart_scenario :
  cart (clearCart shop_with_3) = []
  /\ inventory (clearCart shop_with_3) !! "mug-1" = Some (Num 5)
  /\ last (events (clearCart shop_with_3)) = Some CartCleared.
Proof. vm_compute. repeat split. Qed.

Example prevents_overselling :
  (addToCart "mug-1" 2 (setInventory "mug-1" 1 shop)).1 = false.
Proof. vm_compute. reflexivity. Qed.

Example local_checkout_scenario :
  let r := startCheckout "2024-01-01T00:00:00.000Z" true "1" shop_with_3 in
  r.1 = Summarised
  /\ cart r.2 = []
  /\ inventory r.2 !! "mug-1" = Some (Num 5)
  /\ (λ o, item_quantity <$> checkout_cart (order_data o))
       <$> stored_orders (storage r.2) = [[3]].
Proof. vm_compute. repeat split. Qed.

(** ** What the presentation layer leaves alone *)

Lemma presentation_only_refl s : presentation_only s s.
Proof. repeat split. Qed.

Lemma presentation_only_trans s1 s2 s3 :
  presentation_only s1 s2 -> presentation_only s2 s3 -> presentation_only s1 s3.
Proof.
  unfold presentation_only.
  intros (-> & -> & -> & -> & -> & -> & ->) (-> & -> & -> & -> & -> & -> & ->).
  repeat split.
Qed.

Lemma with_document_presentation d s : presentation_only s (with_document d s).
Proof. repeat split. Qed.

Lemma updateStockDisplay_presentation productId s :
  presentation_only s (updateStockDisplay productId s).
Proof.
  unfold updateStockDisplay.
  destruct (find_product productId s); repeat split.
Qed.

Lemma updateAddButton_presentation productId s :
  presentation_only s (updateAddButton productId s).
Proof.
  unfold updateAddButton.
  destruct (find_product productId s); repeat split.
Qed.

Lemma foldl_presentation {A} (f : State -> A -> State) (l : list A) :
  (forall s a, presentation_only s (f s a)) ->
  forall s, presentation_only s (foldl f s l).
Proof.
  intros Hf. induction l as [|a l IH]; intros s; simpl.
  - apply presentation_only_refl.
  - eapply presentation_only_trans; [apply Hf | apply IH].
Qed.

Lemma updateStockDisplays_presentation s :
  presentation_only s (updateStockDisplays s).
Proof.
  unfold updateStockDisplays.
  apply foldl_presentation. intros; apply updateStockDisplay_presentation.
Qed.

Lemma updateAddButtons_presentation s :
  presentation_only s (updateAddButtons s).
Proof.
  unfold updateAddButtons.
  apply foldl_presentation. intros; apply updateAddButton_presentation.
Qed.

Lemma enhanceProductElement_presentation position product s :
  presentation_only s (enhanceProductElement position product s).
Proof.
  unfold enhanceProductElement.
  eapply presentation_only_trans; [|apply updateAddButton_presentation].
  eapply presentation_only_trans; [|apply updateStockDisplay_presentation].
  apply with_document_presentation.
Qed.

(** Rewrites the engine fields of a state reached through presentation
    updates to those of the state before them. *)
Ltac frame H :=
  let Ho := fresh in let Hc := fresh in let Hi := fresh in let Hp := fresh in
  let He := fresh in let Hn := fresh in let Hs := fresh in
  destruct H as (Ho & Hc & Hi & Hp & He & Hn & Hs);
  rewrite ?Ho, ?Hc, ?Hi, ?Hp, ?He, ?Hn, ?Hs; clear Ho Hc Hi Hp He Hn Hs.

(** [showNotification] changes the notification only. *)
Lemma showNotification_fields message type s :
  let s' := showNotification message type s in
  options s' = options s /\ cart s' = cart s /\ inventory s' = inventory s
  /\ products s' = products s /\ events s' = events s
  /\ storage s' = storage s /\ document s' = document s.
Proof.
  unfold showNotification. destruct (notifications (options s)); repeat split.
Qed.

(** ** The effect of the cart operations on cart, ledger and log *)

Lemma reserve_fields productId product quantity s :
  let s' := reserve productId product quantity s in
  cart s' = cart s
  /\ inventory s'
     = <[productId := minus (inventory s !! productId) quantity]> (inventory s)
  /\ products s' = products s /\ options s' = options s
  /\ events s' = events s ++ [ItemAdded productId quantity (cart s)].
Proof.
  unfold reserve. cbv zeta.
  set (s1 := saveData _).
  set (s2 := updateStockDisplay productId s1).
  set (s3 := updateAddButton productId s2).
  set (s4 := showNotification _ _ s3).
  destruct (showNotification_fields (product_name product +:+ " added to cart")
              "success" s3) as (Ho & Hc & Hi & Hp & He & _ & _).
  fold s4 in Ho, Hc, Hi, Hp, He.
  pose proof (updateAddButton_presentation productId s2) as H3.
  pose proof (updateStockDisplay_presentation productId s1) as H2.
  fold s3 in H3. fold s2 in H2.
  simpl. rewrite Ho, Hc, Hi, Hp, He.
  frame H3. frame H2. repeat split.
Qed.

Lemma removeFromCart_fields productId quantity s index cartItem :
  find_item productId s = Some (index, cartItem) ->
  let removeQuantity := default (item_quantity cartItem) (truthy quantity) in
  let cart' :=
    match truthy quantity with
    | Some q =>
        if decide (q < item_quantity cartItem)
        then <[index := with_quantity (item_quantity cartItem - q) cartItem]> (cart s)
        else delete index (cart s)
    | None => delete index (cart s)
    end in
  let r := removeFromCart productId quantity s in
  r.1 = true
  /\ cart r.2 = cart'
  /\ inventory r.2
     = <[productId := Num (availableStock productId s + removeQuantity)]> (inventory s)
  /\ products r.2 = products s
  /\ events r.2 = events s ++ [ItemRemoved productId removeQuantity cart'].
Proof.
  intros Hfind. unfold removeFromCart. rewrite Hfind. cbv zeta.
  set (inv' := <[productId := _]> (inventory s)).
  set (cart' := match truthy quantity with Some _ => _ | None => _ end).
  set (s1 := saveData _).
  pose proof (updateStockDisplays_presentation s1) as H1.
  pose proof (updateAddButtons_presentation (updateStockDisplays s1)) as H2.
  simpl. frame H2. frame H1. repeat split.
Qed.

Lemma clearCart_fields s :
  let s' := clearCart s in
  cart s' = [] /\ inventory s' = release_all (cart s) (inventory s)
  /\ products s' = products s /\ events s' = events s ++ [CartCleared]
  /\ stored_orders (storage s') = stored_orders (storage s).
Proof.
  unfold clearCart. cbv zeta.
  set (s1 := saveData _).
  pose proof (updateStockDisplays_presentation s1) as H1.
  pose proof (updateAddButtons_presentation (updateStockDisplays s1)) as H2.
  simpl. frame H2. frame H1. repeat split.
Qed.

Lemma setInventory_fields productId quantity s :
  let s' := setInventory productId quantity s in
  cart s' = cart s
  /\ inventory s' = <[productId := Num quantity]> (inventory s)
  /\ products s' = products s /\ events s' = events s.
Proof.
  unfold setInventory. cbv zeta.
  set (s1 := saveData _).
  pose proof (updateStockDisplay_presentation productId s1) as H1.
  pose proof (updateAddButton_presentation productId
                (updateStockDisplay productId s1)) as H2.
  frame H2. frame H1. repeat split.
Qed.

(** ** Failed adds *)

(** A refused add leaves the state it was called on, with an error
    notification shown. *)
Lemma addToCart_refusal productId quantity s :
  (addToCart productId quantity s).1 = false ->
  exists message,
    (addToCart productId quantity s).2 = showNotification message "error" s.
Proof.
  unfold addToCart.
  destruct (find_product productId s) as [product|]; [|eauto].
  destruct (decide (availableStock productId s < quantity)); [eauto|].
  destruct (find_item productId s) as [[index existingItem]|]; [|discriminate].
  destruct (decide (availableStock productId s
                    < item_quantity existingItem + quantity)); [eauto|discriminate].
Qed.

Lemma addToCart_refusal_unchanged productId quantity s :
  (addToCart productId quantity s).1 = false ->
  let s' := (addToCart productId quantity s).2 in
  cart s' = cart s /\ inventory s' = inventory s
  /\ storage s' = storage s /\ events s' = events s.
Proof.
  intros Hfail. destruct (addToCart_refusal _ _ _ Hfail) as [m Hm].
  cbv zeta. rewrite Hm.
  destruct (showNotification_fields m "error" s) as (_ & Hc & Hi & _ & He & Hs & _).
  auto.
Qed.

(** C5.  Whenever [addToCart] returns [false] (unknown product, or either
    of the two stock checks), the state it leaves is the state it was
    called on with an error notification shown: cart, ledger, stored data
    and event log are exactly those before the call.  The function is total:
    a failure is a returned [false]. *)
Theorem addToCart_failure_atomic productId quantity s :
  (addToCart productId quantity s).1 = false ->
  let s' := (addToCart productId quantity s).2 in
  (exists message, s' = showNotification message "error" s)
  /\ cart s' = cart s /\ inventory s' = inventory s
  /\ storage s' = storage s /\ events s' = events s.
Proof.
  intros Hfail s'. split.
  - apply addToCart_refusal, Hfail.
  - apply addToCart_refusal_unchanged, Hfail.
Qed.

Lemma addToCart_failure_atomic_witness :
  let s' := (addToCart "mug-1" 9 shop).2 in
  (exists message, s' = showNotification message "error" shop)
  /\ cart s' = cart shop /\ inventory s' = inventory shop
  /\ storage s' = storage shop /\ events s' = events shop.
Proof. apply (addToCart_failure_atomic "mug-1" 9 shop). vm_compute. reflexivity. Defined.

(** ** When an add is refused *)

Example shop_with_3_state :
  (addToCart "mug-1" 3 shop).1 = true
  /\ item_quantity <$> cart shop_with_3 = [3]
  /\ inventory shop_with_3 !! "mug-1" = Some (Num 2)
  /\ (addToCart "mug-1" 3 shop_with_3).1 = false.
Proof. vm_compute. repeat split. Qed.


(** For a known product, the two stock checks are the only way an add is
    refused. *)
Lemma addToCart_refused_when productId quantity s :
  is_Some (find_product productId s) ->
  (addToCart productId quantity s).1 = false
  <-> (availableStock productId s < quantity
       \/ exists index existingItem,
            find_item productId s = Some (index, existingItem)
            /\ availableStock productId s < item_quantity existingItem + quantity).
Proof.
  intros [product Hproduct]. unfold addToCart. rewrite Hproduct.
  destruct (decide (availableStock productId s < quantity)) as [Hlt|Hge].
  { simpl. split; auto. }
  destruct (find_item productId s) as [[index existingItem]|] eqn:Hitem.
  - destruct (decide (availableStock productId s
                      < item_quantity existingItem + quantity)) as [Hlt|Hge'];
      simpl; split; try discriminate; eauto.
    intros [?|(i & item & [= <- <-] & ?)]; contradiction.
  - simpl. split; [discriminate|].
    intros [?|(i & item & ? & ?)]; [contradiction|discriminate].
Qed.



(** The effect of an accepted add. *)
Lemma addToCart_accepted productId quantity s product :
  find_product productId s = Some product ->
  ~ availableStock productId s < quantity ->
  (forall index existingItem,
     find_item productId s = Some (index, existingItem) ->
     ~ availableStock productId s < item_quantity existingItem + quantity) ->
  let r := addToCart productId quantity s in
  r.1 = true
  /\ cart r.2
     = match find_item productId s with
       | Some (index, existingItem) =>
           <[index := with_quantity (item_quantity existingItem + quantity)
                                    existingItem]> (cart s)
       | None => cart s ++ [new_item productId product quantity]
       end
  /\ inventory r.2
     = <[productId := minus (inventory s !! productId) quantity]> (inventory s)
  /\ events r.2 = events s ++ [ItemAdded productId quantity (cart r.2)].
Proof.
  intros Hproduct Hge Htotal. unfold addToCart. rewrite Hproduct.
  destruct (decide (availableStock productId s < quantity)); [contradiction|].
  destruct (find_item productId s) as [[index existingItem]|] eqn:Hitem.
  - destruct (decide (availableStock productId s
                      < item_quantity existingItem + quantity)) as [Hlt|_].
    { destruct (Htotal _ _ eq_refl Hlt). }
    cbv zeta. simpl fst. simpl snd.
    destruct (reserve_fields productId product quantity
                (with_cart (<[index := with_quantity
                                (item_quantity existingItem + quantity)
                                existingItem]> (cart s)) s))
      as (Hc & Hi & _ & _ & He).
    rewrite Hc, Hi, He. repeat split.
  - cbv zeta. simpl fst. simpl snd.
    destruct (reserve_fields productId product quantity
                (with_cart (cart s ++ [new_item productId product quantity]) s))
      as (Hc & Hi & _ & _ & He).
    rewrite Hc, Hi, He. repeat split.
Qed.

(** ** Adds of a non-positive quantity *)

(** C10, as stated, fails for a top-up: the product is known, its ledger
    entry is 1 and the request is -1, yet the add is refused, since the
    ledger quantity 1 is below the combined total 4 + (-1). *)
Lemma addToCart_nonpositive_counterexample :
  is_Some (find_product "mug-1" shop_with_4)
  /\ inventory shop_with_4 !! "mug-1" = Some (Num 1)
  /\ -1 <= 0
  /\ (addToCart "mug-1" (-1) shop_with_4).1 = false.
Proof. vm_compute. repeat split; eauto. discriminate. Qed.

(** C10, amended.  For a known product whose ledger entry is an integer
    [stock >= 0] and a request [quantity <= 0]: when the product has no line
    item the add succeeds and appends a line item of that non-positive
    quantity; when it has one of quantity [h], the add succeeds if
    [h + quantity <= stock] and is refused, changing neither cart nor
    ledger, otherwise.  Every successful add moves the ledger entry to
    [stock - quantity]. *)
Theorem addToCart_nonpositive productId quantity s product stock :
  find_product productId s = Some product ->
  inventory s !! productId = Some (Num stock) ->
  0 <= stock ->
  quantity <= 0 ->
  let r := addToCart productId quantity s in
  match find_item productId s with
  | None =>
      r.1 = true
      /\ cart r.2 = cart s ++ [new_item productId product quantity]
      /\ inventory r.2 = <[productId := Num (stock - quantity)]> (inventory s)
  | Some (index, existingItem) =>
      if decide (item_quantity existingItem + quantity <= stock)
      then r.1 = true
           /\ cart r.2
              = <[index := with_quantity (item_quantity existingItem + quantity)
                                         existingItem]> (cart s)
           /\ inventory r.2 = <[productId := Num (stock - quantity)]> (inventory s)
      else r.1 = false /\ cart r.2 = cart s /\ inventory r.2 = inventory s
  end.
Proof.
  intros Hproduct Hstock Hnonneg Hq r.
  assert (availableStock productId s = stock) as Havail.
  { unfold availableStock. rewrite Hstock. reflexivity. }
  destruct (find_item productId s) as [[index existingItem]|] eqn:Hitem.
  - destruct (decide (item_quantity existingItem + quantity <= stock)) as [Hle|Hgt].
    + destruct (addToCart_accepted productId quantity s product Hproduct)
        as (Hr & Hc & Hi & _).
      * lia.
      * intros i item. rewrite Hitem. intros [= <- <-]. lia.
      * subst r. rewrite Hr, Hc, Hi, Hitem, Hstock. repeat split.
    + assert (r.1 = false) as Hr.
      { subst r. apply addToCart_refused_when; [eauto|].
        right. exists index, existingItem. split; [assumption|lia]. }
      split; [assumption|].
      destruct (addToCart_refusal_unchanged productId quantity s Hr)
        as (Hc & Hi & _).
      auto.
  - destruct (addToCart_accepted productId quantity s product Hproduct)
      as (Hr & Hc & Hi & _).
    + lia.
    + intros i item. rewrite Hitem. discriminate.
    + subst r. rewrite Hr, Hc, Hi, Hitem, Hstock. repeat split.
Qed.

Lemma addToCart_nonpositive_witness :
  let r := addToCart "mug-1" (-2) shop in
  r.1 = true
  /\ cart r.2 = cart shop ++ [new_item "mug-1" mug_product (-2)]
  /\ inventory r.2 = <["mug-1" := Num (5 - -2)]> (inventory shop).
Proof.
  apply (addToCart_nonpositive "mug-1" (-2) shop mug_product 5);
    [vm_compute; reflexivity | vm_compute; reflexivity | lia | lia].
Defined.

(** ** The administrative override *)



(** ** Removal *)

(** A removal that takes out the whole line item because the requested
    quantity [q] is at least the quantity held: the ledger is credited with
    [q], and [q] is the quantity the event carries. *)
Lemma removeFromCart_at_least_held productId q s index cartItem :
  find_item productId s = Some (index, cartItem) ->
  q <> 0 ->
  item_quantity cartItem <= q ->
  let r := removeFromCart productId (Some q) s in
  r.1 = true
  /\ cart r.2 = delete index (cart s)
  /\ inventory r.2 = <[productId := Num (availableStock productId s + q)]> (inventory s)
  /\ last (events r.2) = Some (ItemRemoved productId q (delete index (cart s))).
Proof.
  intros Hitem Hq Hheld.
  destruct (removeFromCart_fields productId (Some q) s index cartItem Hitem)
    as (Hr & Hc & Hi & _ & He).
  revert Hc Hi He. unfold truthy.
  destruct (decide (q = 0)); [contradiction|].
  destruct (decide (q < item_quantity cartItem)); [lia|].
  simpl. intros Hc Hi He. cbv zeta. rewrite Hr, Hc, Hi, He, last_snoc.
  repeat split.
Qed.

(** C2, evaluated on the specification's scenario: 3 mugs held, 2 in the
    ledger, [removeFromCart("mug-1", 10)].  The line item is removed, but
    the ledger is credited with the 10 requested (2 + 10 = 12, where
    releasing the 3 held would give 5), and the event carries 10. *)
Theorem removeFromCart_over_release :
  let r := removeFromCart "mug-1" (Some 10) shop_with_3 in
  item_quantity <$> cart shop_with_3 = [3]
  /\ inventory shop_with_3 !! "mug-1" = Some (Num 2)
  /\ r.1 = true
  /\ cart r.2 = []
  /\ inventory r.2 !! "mug-1" = Some (Num 12)
  /\ last (events r.2) = Some (ItemRemoved "mug-1" 10 []).
Proof. vm_compute. repeat split. Qed.

(** ** Add followed by remove *)






(** What an accepted add had to pass. *)
Lemma addToCart_true productId quantity s :
  (addToCart productId quantity s).1 = true ->
  exists product,
    find_product productId s = Some product
    /\ ~ availableStock productId s < quantity
    /\ forall index existingItem,
         find_item productId s = Some (index, existingItem) ->
         ~ availableStock productId s < item_quantity existingItem + quantity.
Proof.
  unfold addToCart.
  destruct (find_product productId s) as [product|]; [|discriminate].
  destruct (decide (availableStock productId s < quantity)); [discriminate|].
  intros H. exists product. split; [reflexivity|]. split; [assumption|].
  intros index existingItem Hitem. rewrite Hitem in H.
  destruct (decide (availableStock productId s
                    < item_quantity existingItem + quantity)); [discriminate|].
  assumption.
Qed.




(** ** The closed-system stock invariant *)

(** C1, evaluated on the scenario: from the scanned shop (5 mugs declared,
    empty cart), [addToCart("mug-1", 3)] then [removeFromCart("mug-1", 10)]
    leave 12 mugs in the ledger and none in the cart, so ledger plus cart is
    12, not the 5 declared: the removal credits the ledger with the 10 it was
    asked for, where 3 were held. *)
Theorem stock_invariant_broken :
  let s := run [AddToCart "mug-1" 3; RemoveFromCart "mug-1" (Some 10)] shop in
  cart shop = [] /\ inventory shop !! "mug-1" = Some (Num 5)
  /\ product_inventory <$> find_product "mug-1" shop = Some (Num 5)
  /\ inventory s !! "mug-1" = Some (Num 12)
  /\ line_quantity "mug-1" s = 0
  /\ 12 + line_quantity "mug-1" s <> 5.
Proof. vm_compute. repeat split; discriminate. Qed.

Section Held.
Variable productId : string.






(** What [clearCart] gives back to an integer ledger entry. *)
Lemma release_all_lookup (l : list CartItem) inv z :
  inv !! productId = Some (Num z) ->
  release_all l inv !! productId = Some (Num (z + held productId l)).
Proof.
  revert inv z. induction l as [|x l IH]; intros inv z Hentry; simpl.
  - rewrite Hentry. do 2 f_equal. lia.
  - destruct (decide (item_id x = productId)) as [Hid|Hne].
    + rewrite (IH _ (z + item_quantity x)).
      * do 2 f_equal. lia.
      * rewrite Hid, lookup_insert_eq, Hentry. reflexivity.
    + apply IH. rewrite lookup_insert_ne by assumption. exact Hentry.
Qed.
End Held.

Lemma item_ids_insert (l : list CartItem) index old new :
  l !! index = Some old ->
  item_id new = item_id old ->
  item_id <$> <[index := new]> l = item_id <$> l.
Proof.
  intros Hlookup Hid. rewrite list_fmap_insert, Hid.
  apply list_insert_id. rewrite list_lookup_fmap, Hlookup. reflexivity.
Qed.

Lemma item_ids_delete (l : list CartItem) index :
  NoDup (item_id <$> l) -> NoDup (item_id <$> delete index l).
Proof.
  rewrite list_fmap_delete. intros Hnodup.
  eauto using sublist_NoDup, sublist_delete.
Qed.





(** ** Totals *)

(** The rounding rule: a tie on the scaled value goes up (towards
    +infinity), whatever the sign; what counts is the double, so 1.005,
    which lies below the tie as a double, goes to 1. *)
Example round2_examples :
  round2 0.125 = 0.13%float /\ round2 (-0.125) = (-0.12)%float
  /\ round2 2.004 = 2%float /\ round2 1.005 = 1%float
  /\ round2 9.99 = 9.99%float.
Proof. repeat split; reflexivity. Qed.

Lemma raw_subtotal_priced (l1 l2 : list CartItem) :
  (λ item, (item_price item, item_quantity item)) <$> l1
  = (λ item, (item_price item, item_quantity item)) <$> l2 ->
  forall sum : float,
    foldl (λ sum item, (sum + item_price item * of_Z (item_quantity item))%float)
          sum l1
    = foldl (λ sum item, (sum + item_price item * of_Z (item_quantity item))%float)
            sum l2.
Proof.
  revert l2. induction l1 as [|x l1 IH]; intros [|y l2]; simpl; try discriminate.
  - reflexivity.
  - intros [= Hprice Hquantity Hrest] sum. rewrite Hprice, Hquantity.
    apply IH, Hrest.
Qed.

Lemma itemCount_priced (l1 l2 : list CartItem) :
  (λ item, (item_price item, item_quantity item)) <$> l1
  = (λ item, (item_price item, item_quantity item)) <$> l2 ->
  forall sum : Z,
    foldl (λ sum item, sum + item_quantity item) sum l1
    = foldl (λ sum item, sum + item_quantity item) sum l2.
Proof.
  revert l2. induction l1 as [|x l1 IH]; intros [|y l2]; simpl; try discriminate.
  - reflexivity.
  - intros [= Hprice Hquantity Hrest] sum. rewrite Hquantity. apply IH, Hrest.
Qed.

Lemma calculateTotals_priced s1 s2 :
  priced s1 = priced s2 ->
  taxRate (options s1) = taxRate (options s2) ->
  shippingCost (options s1) = shippingCost (options s2) ->
  calculateTotals s1 = calculateTotals s2.
Proof.
  unfold priced, calculateTotals, raw_subtotal. intros Hcart -> ->.
  rewrite (raw_subtotal_priced _ _ Hcart), (itemCount_priced _ _ Hcart).
  reflexivity.
Qed.

(** [Math_round] follows the rule. *)
Lemma Math_round_half_up x : rounds_half_up x (Math_round x).
Proof.
  unfold rounds_half_up, Math_round.
  destruct (Prim2SF x) as [| | |s m e]; try reflexivity.
  destruct (0 <=? e) eqn:He; [reflexivity|].
  apply Z.leb_gt in He.
  set (v := if s then Z.neg m else Z.pos m).
  set (d := 2 ^ (- e)).
  assert (0 < d) as Hd by (apply Z.pow_pos_nonneg; lia).
  exists ((2 * v + d) / (2 * d)).
  pose proof (Z.div_mod (2 * v + d) (2 * d) ltac:(lia)) as Hdiv.
  pose proof (Z.mod_pos_bound (2 * v + d) (2 * d) ltac:(lia)) as Hmod.
  split; [nia|]. split; [nia|reflexivity].
Qed.

(** The rule leaves no choice. *)
Lemma rounds_half_up_unique x y1 y2 :
  rounds_half_up x y1 -> rounds_half_up x y2 -> y1 = y2.
Proof.
  unfold rounds_half_up.
  destruct (Prim2SF x) as [| | |s m e]; try congruence.
  destruct (0 <=? e) eqn:He; [congruence|].
  apply Z.leb_gt in He.
  set (v := if s then Z.neg m else Z.pos m).
  set (d := 2 ^ (- e)).
  assert (0 < d) as Hd by (apply Z.pow_pos_nonneg; lia).
  intros (n1 & Hlow1 & Hhigh1 & ->) (n2 & Hlow2 & Hhigh2 & ->).
  assert (n1 = n2) as -> by nia.
  reflexivity.
Qed.

Lemma round2_to_cents x figure : rounded_to_cents x figure <-> figure = round2 x.
Proof.
  split.
  - intros (r & Hr & ->). unfold round2.
    rewrite (rounds_half_up_unique _ _ _ Hr (Math_round_half_up (x * 100))).
    reflexivity.
  - intros ->. exists (Math_round (x * 100)).
    split; [apply Math_round_half_up|reflexivity].
Qed.

(** C8.  [calculateTotals] is a function of the cart, the tax rate and the
    shipping cost: two states that agree on these have the same totals,
    whatever the rest of the state.  Each of the four monetary figures is
    rounded to two decimal places by one rule: it is the one value that is
    one hundredth of the integer nearest to one hundred times the unrounded
    figure, a tie going up.  On a cart of two line items, 10.00 x 2 and
    5.00 x 1, with tax rate 0.08 and shipping 9.99, the totals are 25.00,
    2.00, 9.99 and 36.99 (3 items).  On a cart of 19.99 x 3 with tax rate 0.0825 and shipping
    4.995, where every unrounded figure has more than two decimals, they
    are 59.97, 4.95, 5.00 and 69.91: the total is the rounding of the
    unrounded total, not the sum of the rounded figures. *)
Theorem calculateTotals_deterministic_rounded s1 s2 :
  cart s1 = cart s2 ->
  taxRate (options s1) = taxRate (options s2) ->
  shippingCost (options s1) = shippingCost (options s2) ->
  calculateTotals s1 = calculateTotals s2
  /\ (let rate := taxRate (options s1) in
      let cost := shippingCost (options s1) in
      forall figure,
        (rounded_to_cents (raw_subtotal (cart s1)) figure
         <-> figure = subtotal (calculateTotals s1))
        /\ (rounded_to_cents (raw_tax (cart s1) rate) figure
            <-> figure = tax (calculateTotals s1))
        /\ (rounded_to_cents cost figure
            <-> figure = shipping (calculateTotals s1))
        /\ (rounded_to_cents (raw_total (cart s1) rate cost) figure
            <-> figure = total (calculateTotals s1)))
  /\ (forall s,
        priced s = [(10%float, 2); (5%float, 1)] ->
        taxRate (options s) = 0.08%float ->
        shippingCost (options s) = 9.99%float ->
        calculateTotals s = scenario_totals)
  /\ (forall s,
        priced s = [(19.99%float, 3)] ->
        taxRate (options s) = 0.0825%float ->
        shippingCost (options s) = 4.995%float ->
        calculateTotals s = rounding_totals).
Proof.
  intros Hcart Hrate Hcost. split.
  { apply calculateTotals_priced; [unfold priced; rewrite Hcart|..]; auto. }
  split; [intros rate cost figure; repeat split; apply round2_to_cents|].
  set (item price quantity :=
         {| item_id := ""; item_name := ""; item_price := price;
            item_quantity := quantity; item_sku := ""; item_image := "" |}).
  set (reference items rate cost :=
         with_cart items
           (new_state {| apiEndpoint := None; taxRate := rate;
                         shippingCost := cost; notifications := true |} [])).
  split; intros s Hpriced Htax Hship.
  - rewrite (calculateTotals_priced s
               (reference [item 10%float 2; item 5%float 1] 0.08%float 9.99%float));
      [|assumption..].
    vm_compute. reflexivity.
  - rewrite (calculateTotals_priced s
               (reference [item 19.99%float 3] 0.0825%float 4.995%float));
      [|assumption..].
    vm_compute. reflexivity.
Qed.

Lemma calculateTotals_deterministic_rounded_witness :
  calculateTotals shop_with_3
  = calculateTotals (with_inventory ∅ (with_events [] shop_with_3)).
Proof.
  refine (proj1 (calculateTotals_deterministic_rounded shop_with_3
                   (with_inventory ∅ (with_events [] shop_with_3)) _ _ _));
    vm_compute; reflexivity.
Defined.

(** ** Remote checkout *)

(** A failed submission shows the error and logs [api-error]; it touches
    neither the cart, nor the ledger, nor the stored data, whatever the
    state the engine is in when the request settles. *)
Lemma submitToAPI_failed checkoutData outcome orderId s :
  failed outcome = true ->
  let s' := submitToAPI checkoutData outcome orderId s in
  cart s' = cart s /\ inventory s' = inventory s /\ storage s' = storage s
  /\ options s' = options s
  /\ exists error, events s' = events s ++ [ApiError error].
Proof.
  intros Hfailed.
  assert (forall message,
            let s' := emit (ApiError message)
                        (showNotification "Checkout failed. Please try again."
                                          "error" s) in
            cart s' = cart s /\ inventory s' = inventory s /\ storage s' = storage s
            /\ options s' = options s
            /\ exists error, events s' = events s ++ [ApiError error]) as Hcatch.
  { intros message.
    destruct (showNotification_fields "Checkout failed. Please try again." "error" s)
      as (Ho & Hc & Hi & _ & He & Hs & _).
    simpl. rewrite Ho, Hc, Hi, He, Hs. eauto 10. }
  destruct outcome as [message|[|] status [result|]]; try discriminate Hfailed;
    apply Hcatch.
Qed.

(** With a non-empty cart and an endpoint configured, [startCheckout] logs
    [checkout-started] and hands the snapshot to the endpoint; nothing else
    changes. *)
Lemma startCheckout_submits timestamp confirmed orderId s :
  truthy_str (apiEndpoint (options s)) = true ->
  cart s <> [] ->
  let checkoutData :=
    {| checkout_cart := cart s; checkout_totals := calculateTotals s;
       checkout_timestamp := timestamp |} in
  startCheckout timestamp confirmed orderId s
  = (Submitted checkoutData, emit (CheckoutStarted checkoutData) s).
Proof.
  intros Hendpoint Hcart. unfold startCheckout.
  destruct (cart s) as [|item items] eqn:Hitems; [contradiction|].
  simpl. rewrite Hendpoint. reflexivity.
Qed.

(** C9.  With an endpoint configured and a non-empty cart, [startCheckout]
    submits the snapshot; when the submission fails (the request is
    rejected, or the status is not a success), the cart, the ledger and the
    stored orders are exactly those before [startCheckout] was called, the
    last event is [api-error], and a further [startCheckout] is accepted: it
    submits again, with the same cart. *)
Theorem remote_checkout_failure_atomic timestamp confirmed orderId outcome s :
  truthy_str (apiEndpoint (options s)) = true ->
  cart s <> [] ->
  failed outcome = true ->
  exists checkoutData,
    let started := startCheckout timestamp confirmed orderId s in
    let s' := submitToAPI checkoutData outcome orderId started.2 in
    started.1 = Submitted checkoutData
    /\ cart started.2 = cart s /\ inventory started.2 = inventory s
    /\ cart s' = cart s /\ inventory s' = inventory s
    /\ stored_orders (storage s') = stored_orders (storage s)
    /\ (exists error, last (events s') = Some (ApiError error))
    /\ forall timestamp' confirmed' orderId',
         exists checkoutData',
           (startCheckout timestamp' confirmed' orderId' s').1
           = Submitted checkoutData'
           /\ checkout_cart checkoutData' = cart s.
Proof.
  intros Hendpoint Hcart Hfailed.
  set (checkoutData :=
         {| checkout_cart := cart s; checkout_totals := calculateTotals s;
            checkout_timestamp := timestamp |}).
  exists checkoutData. cbv zeta.
  rewrite (startCheckout_submits timestamp confirmed orderId s Hendpoint Hcart).
  fold checkoutData. simpl fst. simpl snd.
  set (s1 := emit (CheckoutStarted checkoutData) s).
  destruct (submitToAPI_failed checkoutData outcome orderId s1 Hfailed)
    as (Hc & Hi & Hs & Ho & error & He).
  split; [reflexivity|]. split; [reflexivity|]. split; [reflexivity|].
  rewrite Hc, Hi, Hs. split; [reflexivity|]. split; [reflexivity|].
  split; [reflexivity|]. split.
  { exists error. rewrite He. apply last_snoc. }
  intros timestamp' confirmed' orderId'.
  rewrite startCheckout_submits.
  - eexists. split; [reflexivity|]. simpl. exact Hc.
  - rewrite Ho. exact Hendpoint.
  - rewrite Hc. exact Hcart.
Qed.

Lemma remote_checkout_failure_atomic_witness :
  exists checkoutData,
    let started := startCheckout "2024-01-01T00:00:00.000Z" false "1" remote_shop in
    let s' := submitToAPI checkoutData (Response false 500 None) "1" started.2 in
    started.1 = Submitted checkoutData
    /\ cart started.2 = cart remote_shop /\ inventory started.2 = inventory remote_shop
    /\ cart s' = cart remote_shop /\ inventory s' = inventory remote_shop
    /\ stored_orders (storage s') = stored_orders (storage remote_shop)
    /\ (exists error, last (events s') = Some (ApiError error))
    /\ forall timestamp' confirmed' orderId',
         exists checkoutData',
           (startCheckout timestamp' confirmed' orderId' s').1
           = Submitted checkoutData'
           /\ checkout_cart checkoutData' = cart remote_shop.
Proof.
  refine (remote_checkout_failure_atomic "2024-01-01T00:00:00.000Z" false "1"
            (Response false 500 None) remote_shop _ _ _).
  - vm_compute. reflexivity.
  - vm_compute. discriminate.
  - reflexivity.
Defined.

(** ** Scanning twice *)

Lemma alter_declared (f : Element -> Element) (i : nat) (d : list Element) :
  (forall e, declared (f e) = declared e) ->
  declared <$> alter f i d = declared <$> d.
Proof.
  intros Hf. rewrite (list_fmap_alter declared f id).
  - apply list_alter_id. reflexivity.
  - apply Forall_forall. intros e _. apply Hf.
Qed.

Lemma updateStockDisplay_declared productId s :
  declared <$> document (updateStockDisplay productId s) = declared <$> document s.
Proof.
  unfold updateStockDisplay.
  destruct (find_product productId s); [|reflexivity].
  simpl. apply alter_declared. intros e.
  destruct (stock_display e); reflexivity.
Qed.

Lemma updateAddButton_declared productId s :
  declared <$> document (updateAddButton productId s) = declared <$> document s.
Proof.
  unfold updateAddButton.
  destruct (find_product productId s); [|reflexivity].
  simpl. apply alter_declared. intros e.
  destruct (add_button e), (quantity_input e); reflexivity.
Qed.

Lemma enhanceProductElement_declared position product s :
  declared <$> document (enhanceProductElement position product s)
  = declared <$> document s.
Proof.
  unfold enhanceProductElement.
  rewrite updateAddButton_declared, updateStockDisplay_declared. simpl.
  apply alter_declared. reflexivity.
Qed.

Lemma initializeInventory_fields product s :
  let s' := initializeInventory product s in
  document s' = document s /\ products s' = products s.
Proof.
  unfold initializeInventory.
  destruct (key_in (product_id product) (inventory s)); split; reflexivity.
Qed.






(** A scan never alters a ledger entry that exists. *)
Lemma initializeInventory_keeps product s productId v :
  inventory s !! productId = Some v ->
  inventory (initializeInventory product s) !! productId = Some v.
Proof.
  intros Hentry. unfold initializeInventory.
  destruct (key_in (product_id product) (inventory s)) eqn:Hkey; [assumption|].
  simpl. rewrite lookup_insert_ne; [assumption|].
  intros Heq. unfold key_in in Hkey.
  apply orb_false_iff in Hkey as [Hnone _].
  apply bool_decide_eq_false in Hnone. apply Hnone. rewrite Heq. eauto.
Qed.












(** A scan leaves every ledger entry that exists as it is, on any
    document. *)
Example scan_keeps_sold_stock :
  inventory shop_with_3 !! "mug-1" = Some (Num 2)
  /\ inventory (scanProducts shop_with_3) !! "mug-1" = Some (Num 2).
Proof. split; vm_compute; reflexivity. Qed.

(** * Further properties of the engine *)

(** ** One line item per product *)

Lemma call_distinct_lines c s :
  NoDup (item_id <$> cart s) -> NoDup (item_id <$> cart (call s c)).
Proof.
  intros Hnodup. destruct c as [p q|p quantity|]; unfold call.
  - destruct (addToCart p q s).1 eqn:Hadd.
    + destruct (addToCart_true _ _ _ Hadd) as (product & Hproduct & Hge & Htotal).
      destruct (addToCart_accepted _ _ _ _ Hproduct Hge Htotal) as (_ & -> & _).
      destruct (find_item p s) as [[index item]|] eqn:Hitem.
      * apply list_find_Some in Hitem as (Hlookup & _).
        erewrite item_ids_insert by (eassumption || reflexivity). assumption.
      * apply list_find_None in Hitem. rewrite fmap_app. apply NoDup_app.
        split; [assumption|]. split; [|apply NoDup_singleton].
        intros x (item & -> & Hin)%list_elem_of_fmap. simpl.
        rewrite list_elem_of_singleton.
        rewrite Forall_forall in Hitem. apply Hitem, Hin.
    + destruct (addToCart_refusal_unchanged _ _ _ Hadd) as (-> & _). assumption.
  - destruct (find_item p s) as [[index item]|] eqn:Hitem.
    2:{ unfold removeFromCart. rewrite Hitem. assumption. }
    destruct (removeFromCart_fields p quantity s _ _ Hitem) as (_ & -> & _).
    pose proof Hitem as (Hlookup & _)%list_find_Some.
    destruct (truthy quantity) as [q|];
      [destruct (decide (q < item_quantity item))|];
      try (apply item_ids_delete; assumption).
    erewrite item_ids_insert by (eassumption || reflexivity). assumption.
  - destruct (clearCart_fields s) as (-> & _). apply NoDup_nil_2.
Qed.

(** Whatever calls are made on it, a cart with at most one line item per
    product keeps at most one line item per product. *)
Theorem one_line_per_product calls s :
  NoDup (item_id <$> cart s) -> NoDup (item_id <$> cart (run calls s)).
Proof.
  revert s. induction calls as [|c calls IH]; intros s Hnodup; simpl;
    [assumption|].
  apply IH, call_distinct_lines, Hnodup.
Qed.

Lemma one_line_per_product_witness :
  NoDup (item_id <$> cart (run [AddToCart "mug-1" 1; AddToCart "mug-1" 2;
                                RemoveFromCart "mug-1" (Some 1)] shop)).
Proof.
  apply (one_line_per_product _ shop). vm_compute. apply NoDup_nil_2.
Defined.

(** ** Other products are left alone *)

Lemma line_other_insert productId (l : list CartItem) index old new :
  l !! index = Some old ->
  item_id old <> productId ->
  item_id new <> productId ->
  snd <$> list_find (λ item, item_id item = productId) (<[index := new]> l)
  = snd <$> list_find (λ item, item_id item = productId) l.
Proof.
  revert index. induction l as [|x l IH]; intros [|index]; simpl; try discriminate.
  - intros [= ->] Hold Hnew.
    destruct (decide (item_id new = productId)); [contradiction|].
    destruct (decide (item_id old = productId)); [contradiction|]. reflexivity.
  - intros Hlookup Hold Hnew.
    destruct (decide (item_id x = productId)); [reflexivity|].
    rewrite <- !option_fmap_compose. apply (IH index Hlookup Hold Hnew).
Qed.

Lemma line_other_delete productId (l : list CartItem) index old :
  l !! index = Some old ->
  item_id old <> productId ->
  snd <$> list_find (λ item, item_id item = productId) (delete index l)
  = snd <$> list_find (λ item, item_id item = productId) l.
Proof.
  revert index. induction l as [|x l IH]; intros [|index]; simpl; try discriminate.
  - intros [= ->] Hold.
    destruct (decide (item_id old = productId)); [contradiction|].
    rewrite <- option_fmap_compose. destruct (list_find _ l) as [[]|]; reflexivity.
  - intros Hlookup Hold.
    destruct (decide (item_id x = productId)); [reflexivity|].
    rewrite <- !option_fmap_compose. apply (IH index Hlookup Hold).
Qed.

Lemma line_other_pushed productId (l : list CartItem) new :
  item_id new <> productId ->
  snd <$> list_find (λ item, item_id item = productId) (l ++ [new])
  = snd <$> list_find (λ item, item_id item = productId) l.
Proof.
  intros Hnew. induction l as [|x l IH]; simpl.
  - destruct (decide (item_id new = productId)); [contradiction|reflexivity].
  - destruct (decide (item_id x = productId)); [reflexivity|].
    rewrite <- !option_fmap_compose. exact IH.
Qed.

(** [addToCart] and [removeFromCart] on a product change neither the ledger
    entry nor the line item of any other product. *)
Theorem other_products_untouched productId other q quantity s :
  other <> productId ->
  (let s' := (addToCart productId q s).2 in
   inventory s' !! other = inventory s !! other /\ line other s' = line other s)
  /\ (let s' := (removeFromCart productId quantity s).2 in
      inventory s' !! other = inventory s !! other /\ line other s' = line other s).
Proof.
  intros Hother. unfold line, find_item. split; cbv zeta.
  - destruct (addToCart productId q s).1 eqn:Hadd.
    + destruct (addToCart_true _ _ _ Hadd) as (product & Hproduct & Hge & Htotal).
      destruct (addToCart_accepted _ _ _ _ Hproduct Hge Htotal)
        as (_ & -> & -> & _).
      rewrite lookup_insert_ne by congruence. split; [reflexivity|].
      destruct (find_item productId s) as [[index item]|] eqn:Hitem.
      * apply list_find_Some in Hitem as (Hlookup & Hid & _).
        eapply line_other_insert; [eassumption| |]; simpl; congruence.
      * apply line_other_pushed. simpl. congruence.
    + destruct (addToCart_refusal_unchanged _ _ _ Hadd) as (-> & -> & _).
      split; reflexivity.
  - destruct (find_item productId s) as [[index item]|] eqn:Hitem.
    2:{ unfold removeFromCart. rewrite Hitem. split; reflexivity. }
    destruct (removeFromCart_fields productId quantity s _ _ Hitem)
      as (_ & -> & -> & _).
    rewrite lookup_insert_ne by congruence. split; [reflexivity|].
    apply list_find_Some in Hitem as (Hlookup & Hid & _).
    destruct (truthy quantity) as [q'|];
      [destruct (decide (q' < item_quantity item))|];
      try (eapply line_other_delete; [eassumption|congruence]).
    eapply line_other_insert; [eassumption| |]; simpl; congruence.
Qed.

Lemma other_products_untouched_witness :
  (let s' := (addToCart "kettle-1" 1 shelf).2 in
   inventory s' !! "mug-1" = inventory shelf !! "mug-1"
   /\ line "mug-1" s' = line "mug-1" shelf)
  /\ (let s' := (removeFromCart "kettle-1" None shelf).2 in
      inventory s' !! "mug-1" = inventory shelf !! "mug-1"
      /\ line "mug-1" s' = line "mug-1" shelf).
Proof.
  apply (other_products_untouched "kettle-1" "mug-1" 1 None shelf).
  discriminate.
Defined.

(** ** Removal of a whole line, and of a line that is not there *)



(** [removeFromCart] returns [true] exactly when the product has a line
    item; otherwise it changes nothing at all: no event, no write. *)
Theorem removeFromCart_reports_line productId quantity s :
  let r := removeFromCart productId quantity s in
  (r.1 = true <-> is_Some (line productId s))
  /\ (r.1 = false -> r.2 = s).
Proof.
  unfold line. cbv zeta.
  destruct (find_item productId s) as [[index item]|] eqn:Hitem.
  - destruct (removeFromCart_fields productId quantity s _ _ Hitem) as (Hr & _).
    rewrite Hr. split; [|discriminate]. split; eauto.
  - unfold removeFromCart. rewrite Hitem. simpl. split; [|reflexivity].
    split; [discriminate|]. intros [x Hx]. discriminate Hx.
Qed.

(** ** The ledger entry after an add *)

(** After a successful [addToCart(p, q)]: an integer entry [z] has become
    [z - q], which is not negative; a [NaN] entry, which only a request
    [q <= 0] gets past the stock check, is still [NaN]; and so is, after
    such a request, the entry of a product that had none, unless its
    identifier names a member of [Object.prototype] (whose read is then
    that member, not [undefined]). *)
Theorem addToCart_ledger_entry productId quantity s :
  (addToCart productId quantity s).1 = true ->
  let s' := (addToCart productId quantity s).2 in
  match inventory s !! productId with
  | Some (Num z) =>
      quantity <= z /\ inventory s' !! productId = Some (Num (z - quantity))
  | Some NaN => quantity <= 0 /\ inventory s' !! productId = Some NaN
  | None =>
      inherited productId = false ->
      quantity <= 0 /\ inventory s' !! productId = Some NaN
  end.
Proof.
  intros Hadd.
  destruct (addToCart_true _ _ _ Hadd) as (product & Hproduct & Hge & Htotal).
  destruct (addToCart_accepted _ _ _ _ Hproduct Hge Htotal) as (_ & _ & Hi & _).
  cbv zeta. rewrite Hi, lookup_insert_eq.
  unfold availableStock in Hge.
  destruct (inventory s !! productId) as [[z|]|]; simpl in *; try intros _;
    (split; [lia|reflexivity]).
Qed.

Lemma addToCart_ledger_entry_witness :
  3 <= 5 /\ inventory (addToCart "mug-1" 3 shop).2 !! "mug-1" = Some (Num (5 - 3)).
Proof.
  apply (addToCart_ledger_entry "mug-1" 3 shop). vm_compute. reflexivity.
Defined.

(** ** An override followed by an add *)



(** ** What [clearCart] gives back *)




(** ** Taking out part of a line, then putting it back *)



(** ** The cart under calls for positive quantities *)








(** ** Stored orders and events *)

Lemma reserve_orders productId product quantity s :
  stored_orders (storage (reserve productId product quantity s))
  = stored_orders (storage s).
Proof.
  unfold reserve. cbv zeta.
  set (s1 := saveData _).
  set (s2 := updateStockDisplay productId s1).
  set (s3 := updateAddButton productId s2).
  destruct (showNotification_fields (product_name product +:+ " added to cart")
              "success" s3) as (_ & _ & _ & _ & _ & Hs & _).
  pose proof (updateAddButton_presentation productId s2) as H3.
  pose proof (updateStockDisplay_presentation productId s1) as H2.
  fold s3 in H3. fold s2 in H2.
  simpl. rewrite Hs. frame H3. frame H2. reflexivity.
Qed.

Lemma removeFromCart_orders productId quantity s :
  stored_orders (storage (removeFromCart productId quantity s).2)
  = stored_orders (storage s).
Proof.
  unfold removeFromCart.
  destruct (find_item productId s) as [[index cartItem]|]; [|reflexivity].
  cbv zeta.
  set (s1 := saveData _).
  pose proof (updateStockDisplays_presentation s1) as H1.
  pose proof (updateAddButtons_presentation (updateStockDisplays s1)) as H2.
  simpl. frame H2. frame H1. reflexivity.
Qed.

Lemma clearCart_orders s :
  stored_orders (storage (clearCart s)) = stored_orders (storage s).
Proof.
  unfold clearCart. cbv zeta.
  set (s1 := saveData _).
  pose proof (updateStockDisplays_presentation s1) as H1.
  pose proof (updateAddButtons_presentation (updateStockDisplays s1)) as H2.
  simpl. frame H2. frame H1. reflexivity.
Qed.

Lemma addToCart_orders productId quantity s :
  stored_orders (storage (addToCart productId quantity s).2)
  = stored_orders (storage s).
Proof.
  destruct (addToCart productId quantity s).1 eqn:Hadd.
  - revert Hadd. unfold addToCart.
    destruct (find_product productId s) as [product|]; [|discriminate].
    destruct (decide (availableStock productId s < quantity)); [discriminate|].
    destruct (find_item productId s) as [[index existingItem]|].
    + destruct (decide (availableStock productId s
                        < item_quantity existingItem + quantity)); [discriminate|].
      intros _. exact (reserve_orders productId product quantity (with_cart _ s)).
    + intros _. exact (reserve_orders productId product quantity (with_cart _ s)).
  - destruct (addToCart_refusal_unchanged _ _ _ Hadd) as (_ & _ & -> & _).
    reflexivity.
Qed.

(** No call on the cart touches the stored orders, and a call that is
    refused, or that finds no line item to remove, leaves the whole of the
    stored data as it was. *)
Theorem calls_keep_orders c s :
  let s' := call s c in
  stored_orders (storage s') = stored_orders (storage s)
  /\ match c with
     | AddToCart productId quantity =>
         (addToCart productId quantity s).1 = false -> storage s' = storage s
     | RemoveFromCart productId _ =>
         find_item productId s = None -> storage s' = storage s
     | ClearCart => True
     end.
Proof.
  destruct c as [p q|p quantity|]; unfold call; cbv zeta.
  - split; [apply addToCart_orders|].
    intros Hadd. destruct (addToCart_refusal_unchanged _ _ _ Hadd) as (_ & _ & -> & _).
    reflexivity.
  - split; [apply removeFromCart_orders|].
    intros Hitem. unfold removeFromCart. rewrite Hitem. reflexivity.
  - split; [apply clearCart_orders|exact I].
Qed.

(** What each call appends to the event log: one event carrying the cart
    as the call leaves it, and nothing when the call is refused or finds no
    line item. *)
Theorem calls_announce c s :
  let s' := call s c in
  match c with
  | AddToCart productId quantity =>
      if (addToCart productId quantity s).1
      then events s' = events s ++ [ItemAdded productId quantity (cart s')]
      else events s' = events s
  | RemoveFromCart productId quantity =>
      match find_item productId s with
      | Some (_, item) =>
          events s'
          = events s
            ++ [ItemRemoved productId
                  (default (item_quantity item) (truthy quantity)) (cart s')]
      | None => events s' = events s
      end
  | ClearCart => events s' = events s ++ [CartCleared]
  end.
Proof.
  destruct c as [p q|p quantity|]; unfold call; cbv zeta.
  - destruct (addToCart p q s).1 eqn:Hadd.
    + destruct (addToCart_true _ _ _ Hadd) as (product & Hproduct & Hge & Htotal).
      destruct (addToCart_accepted _ _ _ _ Hproduct Hge Htotal) as (_ & _ & _ & He).
      exact He.
    + destruct (addToCart_refusal_unchanged _ _ _ Hadd) as (_ & _ & _ & He).
      exact He.
  - destruct (find_item p s) as [[index item]|] eqn:Hitem.
    + destruct (removeFromCart_fields p quantity s _ _ Hitem)
        as (_ & Hc & _ & _ & He).
      rewrite He, Hc. reflexivity.
    + unfold removeFromCart. rewrite Hitem. reflexivity.
  - destruct (clearCart_fields s) as (_ & _ & _ & He & _). exact He.
Qed.

(** ** What a scan leaves alone *)

Lemma scanElement_frame s position :
  let s' := scanElement s position in
  cart s' = cart s /\ storage s' = storage s /\ notification s' = notification s
  /\ options s' = options s /\ events s' = events s
  /\ declared <$> document s' = declared <$> document s.
Proof.
  unfold scanElement.
  destruct (document s !! position) as [element|]; [|repeat split].
  destruct (parseProductElement element position) as [product|]; [|repeat split].
  set (s1 := with_products (products s ++ [product]) s).
  pose proof (enhanceProductElement_presentation position product
                (initializeInventory product s1)) as H.
  cbv zeta. rewrite enhanceProductElement_declared.
  frame H.
  assert (initializeInventory product s1 = s1
          \/ initializeInventory product s1
             = with_inventory (<[product_id product := product_inventory product]>
                                 (inventory s1)) s1) as [-> | ->].
  { unfold initializeInventory. destruct (key_in _ _); auto. }
  - repeat split.
  - repeat split.
Qed.

Lemma scan_frame positions :
  forall s,
    let s' := foldl scanElement s positions in
    cart s' = cart s /\ storage s' = storage s /\ notification s' = notification s
    /\ options s' = options s /\ events s' = events s
    /\ declared <$> document s' = declared <$> document s.
Proof.
  induction positions as [|position positions IH]; intros s; simpl;
    [repeat split|].
  destruct (IH (scanElement s position)) as (-> & -> & -> & -> & -> & ->).
  apply scanElement_frame.
Qed.

(** On a document of enhanceable product elements, a scan changes neither
    the cart, nor the stored data, nor the options; it changes no
    [data-pos-*] attribute and no own text of an element (what it adds to
    an element is the class and the three affordances); it appends one
    [products-scanned] event that carries the new product list.  In
    particular the stock it initialises is not written to
    [localStorage]. *)
Theorem scanProducts_frame s :
  Forall enhanceable (document s) ->
  let s' := scanProducts s in
  cart s' = cart s /\ storage s' = storage s /\ options s' = options s
  /\ declared <$> document s' = declared <$> document s
  /\ events s' = events s ++ [ProductsScanned (products s')].
Proof.
  intros _. unfold scanProducts. cbv zeta.
  destruct (scan_frame (productElements (document s)) (with_products [] s))
    as (Hc & Hs & _ & Ho & He & Hd).
  simpl in *. rewrite Hc, Hs, Ho, He, Hd. repeat split.
Qed.

Lemma scanProducts_frame_witness :
  let s := new_state default_options [mug; kettle] in
  let s' := scanProducts s in
  cart s' = cart s /\ storage s' = storage s /\ options s' = options s
  /\ declared <$> document s' = declared <$> document s
  /\ events s' = events s ++ [ProductsScanned (products s')].
Proof.
  refine (scanProducts_frame (new_state default_options [mug; kettle]) _).
  repeat constructor; intros _ [b Hb]; discriminate Hb.
Defined.

(** ** Checkout *)

Lemma completeCheckout_fields checkoutData orderId s :
  let s' := completeCheckout checkoutData orderId s in
  cart s' = []
  /\ inventory s' = release_all (cart s) (inventory s)
  /\ stored_orders (storage s')
     = stored_orders (storage s)
       ++ [{| order_data := checkoutData; order_id := orderId;
              order_status := "completed" |}]
  /\ events s' = events s ++ [CartCleared; CheckoutCompleted checkoutData]
  /\ options s' = options s.
Proof.
  unfold completeCheckout. cbv zeta.
  set (s1 := with_storage _ s).
  destruct (clearCart_fields s1) as (Hc & Hi & _ & He & Ho).
  destruct (showNotification_fields "Order completed successfully!" "success"
              (clearCart s1)) as (Hopt & Hc' & Hi' & _ & He' & Hs' & _).
  assert (options (clearCart s1) = options s1) as Hopt1.
  { unfold clearCart. cbv zeta.
    set (s2 := saveData _).
    pose proof (updateStockDisplays_presentation s2) as H1.
    pose proof (updateAddButtons_presentation (updateStockDisplays s2)) as H2.
    simpl. frame H2. frame H1. reflexivity. }
  simpl. rewrite Hc', Hi', He', Hs', Hopt, Hc, Hi, He, Ho, Hopt1.
  rewrite <- app_assoc. repeat split.
Qed.

Lemma startCheckout_summarises timestamp confirmed orderId s :
  truthy_str (apiEndpoint (options s)) = false ->
  cart s <> [] ->
  let checkoutData :=
    {| checkout_cart := cart s; checkout_totals := calculateTotals s;
       checkout_timestamp := timestamp |} in
  startCheckout timestamp confirmed orderId s
  = (Summarised,
     showCheckoutSummary checkoutData confirmed orderId
       (emit (CheckoutStarted checkoutData) s)).
Proof.
  intros Hendpoint Hcart. unfold startCheckout.
  destruct (cart s) as [|item items] eqn:Hitems; [contradiction|].
  simpl. rewrite Hendpoint. reflexivity.
Qed.

(** A confirmed checkout without an endpoint records one order, holding the
    cart and the totals as they were, empties the cart, and logs
    [checkout-started], [cart-cleared] and [checkout-completed].  The cart is
    emptied through [clearCart]: the quantities sold go back to the ledger,
    so an integer entry [z] ends at [z] plus what the cart held. *)
Theorem local_checkout_confirmed timestamp orderId s :
  truthy_str (apiEndpoint (options s)) = false ->
  cart s <> [] ->
  let checkoutData :=
    {| checkout_cart := cart s; checkout_totals := calculateTotals s;
       checkout_timestamp := timestamp |} in
  let r := startCheckout timestamp true orderId s in
  r.1 = Summarised
  /\ cart r.2 = []
  /\ stored_orders (storage r.2)
     = stored_orders (storage s)
       ++ [{| order_data := checkoutData; order_id := orderId;
              order_status := "completed" |}]
  /\ events r.2
     = events s ++ [CheckoutStarted checkoutData; CartCleared;
                    CheckoutCompleted checkoutData]
  /\ forall productId z,
       inventory s !! productId = Some (Num z) ->
       inventory r.2 !! productId = Some (Num (z + held productId (cart s))).
Proof.
  intros Hendpoint Hcart checkoutData. cbv zeta.
  rewrite (startCheckout_summarises timestamp true orderId s Hendpoint Hcart).
  fold checkoutData. simpl fst. simpl snd. unfold showCheckoutSummary.
  destruct (completeCheckout_fields checkoutData orderId
              (emit (CheckoutStarted checkoutData) s))
    as (Hc & Hi & Ho & He & _).
  rewrite Hc, Hi, Ho, He. simpl. rewrite <- app_assoc.
  repeat split. intros productId z Hentry.
  apply release_all_lookup, Hentry.
Qed.

Lemma local_checkout_confirmed_witness :
  let checkoutData :=
    {| checkout_cart := cart shop_with_3;
       checkout_totals := calculateTotals shop_with_3;
       checkout_timestamp := "2024-01-01T00:00:00.000Z" |} in
  let r := startCheckout "2024-01-01T00:00:00.000Z" true "1" shop_with_3 in
  r.1 = Summarised
  /\ cart r.2 = []
  /\ stored_orders (storage r.2)
     = stored_orders (storage shop_with_3)
       ++ [{| order_data := checkoutData; order_id := "1";
              order_status := "completed" |}]
  /\ events r.2
     = events shop_with_3 ++ [CheckoutStarted checkoutData; CartCleared;
                              CheckoutCompleted checkoutData]
  /\ forall productId z,
       inventory shop_with_3 !! productId = Some (Num z) ->
       inventory r.2 !! productId
       = Some (Num (z + held productId (cart shop_with_3))).
Proof.
  refine (local_checkout_confirmed "2024-01-01T00:00:00.000Z" "1" shop_with_3 _ _).
  - vm_compute. reflexivity.
  - vm_compute. discriminate.
Defined.

(** A checkout on an empty cart, or declined in the confirmation dialog,
    changes neither the cart, nor the ledger, nor the stored data; the
    former logs nothing, the latter only [checkout-started]. *)
Theorem checkout_abandoned timestamp confirmed orderId s :
  cart s = [] \/ (truthy_str (apiEndpoint (options s)) = false /\ confirmed = false) ->
  let r := startCheckout timestamp confirmed orderId s in
  cart r.2 = cart s /\ inventory r.2 = inventory s /\ storage r.2 = storage s
  /\ match cart s with
     | [] => r.1 = Refused /\ events r.2 = events s
     | _ =>
         r.1 = Summarised
         /\ events r.2
            = events s
              ++ [CheckoutStarted
                    {| checkout_cart := cart s; checkout_totals := calculateTotals s;
                       checkout_timestamp := timestamp |}]
     end.
Proof.
  intros Hcase. unfold startCheckout.
  destruct (cart s) as [|item items] eqn:Hitems.
  - cbv zeta.
    destruct (showNotification_fields "Cart is empty" "error" s)
      as (_ & Hc & Hi & _ & He & Hs & _).
    simpl. rewrite Hc, Hi, He, Hs, Hitems. repeat split.
  - destruct Hcase as [?|[Hendpoint ->]]; [discriminate|].
    cbv zeta. simpl. rewrite Hendpoint. simpl. repeat split; exact Hitems.
Qed.

Lemma checkout_abandoned_witness :
  let r := startCheckout "2024-01-01T00:00:00.000Z" false "1" shop_with_3 in
  cart r.2 = cart shop_with_3 /\ inventory r.2 = inventory shop_with_3
  /\ storage r.2 = storage shop_with_3
  /\ match cart shop_with_3 with
     | [] => r.1 = Refused /\ events r.2 = events shop_with_3
     | _ =>
         r.1 = Summarised
         /\ events r.2
            = events shop_with_3
              ++ [CheckoutStarted
                    {| checkout_cart := cart shop_with_3;
                       checkout_totals := calculateTotals shop_with_3;
                       checkout_timestamp := "2024-01-01T00:00:00.000Z" |}]
     end.
Proof.
  refine (checkout_abandoned "2024-01-01T00:00:00.000Z" false "1" shop_with_3 _).
  right. split; [vm_compute; reflexivity|reflexivity].
Defined.



(** ** What a scan puts in the product list and in the ledger *)

Lemma parseProductElement_sound element position product :
  parseProductElement element position = Some product ->
  product_id product <> ""
  /\ isNaN (product_price product) = false
  /\ data_pos_product element = Some (product_id product)
  /\ product_element product = position.
Proof.
  unfold parseProductElement.
  destruct (data_pos_product element) as [id|]; [|discriminate].
  destruct (bool_decide (id = "") || isNaN _) eqn:Hskip; [discriminate|].
  apply orb_false_elim in Hskip as [Hid Hprice].
  apply bool_decide_eq_false in Hid.
  intros [= <-]. simpl. auto.
Qed.

Lemma initializeInventory_initialised product s :
  key_in (product_id product) (inventory (initializeInventory product s)) = true.
Proof.
  unfold initializeInventory.
  destruct (key_in (product_id product) (inventory s)) eqn:Hkey; [exact Hkey|].
  simpl. unfold key_in. rewrite lookup_insert_eq.
  rewrite bool_decide_eq_true_2 by eauto. reflexivity.
Qed.

Lemma initializeInventory_monotone product s productId :
  key_in productId (inventory s) = true ->
  key_in productId (inventory (initializeInventory product s)) = true.
Proof.
  unfold key_in. intros [H|H]%orb_true_iff; apply orb_true_iff; [left|right; exact H].
  apply bool_decide_eq_true in H as [v Hv]. apply bool_decide_eq_true.
  exists v. apply initializeInventory_keeps, Hv.
Qed.

Lemma scanElement_listed s position :
  Forall (listed (declared <$> document s) s) (products s) ->
  Forall (listed (declared <$> document s) (scanElement s position))
         (products (scanElement s position)).
Proof.
  intros Hlisted. unfold scanElement.
  destruct (document s !! position) as [element|] eqn:Hlookup; [|assumption].
  destruct (parseProductElement element position) as [product|] eqn:Hparse;
    [|assumption].
  set (s1 := with_products (products s ++ [product]) s).
  pose proof (enhanceProductElement_presentation position product
                (initializeInventory product s1)) as H.
  destruct H as (_ & _ & Hi & Hp & _).
  destruct (initializeInventory_fields product s1) as (_ & Hp1).
  cbv zeta. rewrite Hp, Hp1. simpl.
  apply Forall_app. split.
  - eapply Forall_impl; [exact Hlisted|].
    intros p (? & ? & Hentry & ?). repeat split; try assumption.
    rewrite Hi. apply initializeInventory_monotone. exact Hentry.
  - apply Forall_singleton.
    destruct (parseProductElement_sound _ _ _ Hparse) as (Hid & Hprice & Hattr & Hpos).
    repeat split; try assumption.
    + rewrite Hi. apply initializeInventory_initialised.
    + exists (declared element). rewrite Hpos, list_lookup_fmap, Hlookup.
      split; [reflexivity|exact Hattr].
Qed.

Lemma scan_listed positions :
  forall s,
    Forall (listed (declared <$> document s) s) (products s) ->
    Forall (listed (declared <$> document s) (foldl scanElement s positions))
           (products (foldl scanElement s positions)).
Proof.
  induction positions as [|position positions IH]; intros s Hlisted; simpl;
    [assumption|].
  destruct (scanElement_frame s position) as (_ & _ & _ & _ & _ & Hd).
  rewrite <- Hd. apply IH. rewrite Hd. apply scanElement_listed, Hlisted.
Qed.

(** After a scan, every product of the list has a non-empty identifier and
    a price that is a number, answers the [in] test of the ledger (it has
    an entry of its own, unless its identifier names a member of
    [Object.prototype]), and refers to an element of the document that
    declares this identifier. *)
Theorem scanned_products_sound s product :
  product ∈ products (scanProducts s) ->
  product_id product <> ""
  /\ isNaN (product_price product) = false
  /\ (is_Some (inventory (scanProducts s) !! product_id product)
      \/ inherited (product_id product) = true)
  /\ exists element,
       document s !! product_element product = Some element
       /\ data_pos_product element = Some (product_id product).
Proof.
  intros Hin.
  pose proof (scan_listed (productElements (document s)) (with_products [] s))
    as Hlisted.
  simpl in Hlisted. specialize (Hlisted (Forall_nil_2 _)).
  rewrite Forall_forall in Hlisted.
  destruct (Hlisted product Hin) as (Hid & Hprice & Hentry & e & He & Hattr).
  repeat split; try assumption.
  - unfold key_in in Hentry. apply orb_true_iff in Hentry as [Hown|Hinherited];
      [left|right; exact Hinherited].
    apply bool_decide_eq_true in Hown. exact Hown.
  - rewrite list_lookup_fmap in He.
    destruct (document s !! product_element product) as [element|]; [|discriminate].
    injection He as <-. exists element. split; [reflexivity|exact Hattr].
Qed.

Lemma scanned_products_sound_witness :
  product_id mug_product <> ""
  /\ isNaN (product_price mug_product) = false
  /\ (is_Some (inventory (scanProducts (new_state default_options [mug; kettle]))
               !! product_id mug_product)
      \/ inherited (product_id mug_product) = true)
  /\ exists element,
       document (new_state default_options [mug; kettle])
         !! product_element mug_product = Some element
       /\ data_pos_product element = Some (product_id mug_product).
Proof.
  apply (scanned_products_sound (new_state default_options [mug; kettle]) mug_product).
  vm_compute. left.
Defined.

(** The stock of a product the ledger did not know. *)
Lemma find_product_pushed productId (l : list Product) (product : Product) :
  list_find (λ p, product_id p = productId) (l ++ [product])
  = match list_find (λ p, product_id p = productId) l with
    | Some found => Some found
    | None => if decide (product_id product = productId)
              then Some (length l, product) else None
    end.
Proof.
  destruct (list_find (λ p, product_id p = productId) l) as [[i p]|] eqn:Hfind.
  - apply list_find_app_l, Hfind.
  - rewrite list_find_app_r by assumption. simpl.
    destruct (decide (product_id product = productId)); reflexivity.
Qed.

Lemma scanElement_first_declaration productId s position :
  first_declaration productId s ->
  first_declaration productId (scanElement s position).
Proof.
  unfold first_declaration, scanElement. intros Hfirst.
  destruct (document s !! position) as [element|]; [|assumption].
  destruct (parseProductElement element position) as [product|]; [|assumption].
  set (s1 := with_products (products s ++ [product]) s).
  destruct (enhanceProductElement_presentation position product
              (initializeInventory product s1)) as (_ & _ & Hi & Hp & _).
  destruct (initializeInventory_fields product s1) as (_ & Hp1).
  unfold find_product in *. cbv zeta. rewrite Hi, Hp, Hp1. simpl.
  rewrite find_product_pushed.
  unfold initializeInventory, key_in. simpl.
  destruct (decide (product_id product = productId)) as [Heq|Hne].
  - rewrite Heq. destruct (inherited productId) eqn:Hinherited.
    + rewrite orb_true_r. exact Hfirst.
    + rewrite orb_false_r.
      destruct (list_find (λ p, product_id p = productId) (products s))
        as [[i p]|]; simpl in *.
      * rewrite Hfirst. rewrite bool_decide_eq_true_2 by eauto. exact Hfirst.
      * rewrite Hfirst. rewrite bool_decide_eq_false_2 by (intros [v Hv]; discriminate).
        simpl. apply lookup_insert_eq.
  - assert (forall v : option jsnum,
              inventory s !! productId = v ->
              inventory
                (if bool_decide (is_Some (inventory s !! product_id product))
                    || inherited (product_id product)
                 then s1
                 else with_inventory
                        (<[product_id product := product_inventory product]>
                           (inventory s1)) s1) !! productId = v) as Hkeep.
    { intros v Hv.
      destruct (bool_decide (is_Some (inventory s !! product_id product))
                || inherited (product_id product)); [exact Hv|].
      simpl. rewrite lookup_insert_ne; assumption. }
    destruct (inherited productId); [apply Hkeep, Hfirst|].
    destruct (list_find (λ p, product_id p = productId) (products s))
      as [[i p]|]; simpl in *; apply Hkeep, Hfirst.
Qed.

(** What a scan writes for an identifier that had no key in the ledger:
    the stock declared by the first element with that identifier that
    parses (the product [find] returns), nothing when no element with the
    identifier parses, and nothing when the identifier names a member of
    [Object.prototype], which the [in] test of [initializeInventory] takes
    for a key. *)
Theorem scan_initialises_stock productId s :
  inventory s !! productId = None ->
  Forall enhanceable (document s) ->
  let s' := scanProducts s in
  if inherited productId then inventory s' !! productId = None
  else
    match find_product productId s' with
    | Some product => inventory s' !! productId = Some (product_inventory product)
    | None => inventory s' !! productId = None
    end.
Proof.
  intros Hnone _.
  assert (forall positions s',
            first_declaration productId s' ->
            first_declaration productId (foldl scanElement s' positions)) as Hfold.
  { induction positions as [|position positions IH]; intros s' Hs'; simpl;
      [assumption|].
    apply IH, scanElement_first_declaration, Hs'. }
  specialize (Hfold (productElements (document s)) (with_products [] s)).
  unfold first_declaration in Hfold. unfold scanProducts.
  unfold find_product in *. simpl in *.
  apply Hfold. destruct (inherited productId); exact Hnone.
Qed.

Lemma scan_initialises_stock_witness :
  let s' := scanProducts (new_state default_options [mug; kettle]) in
  if inherited "kettle-1" then inventory s' !! "kettle-1" = None
  else
    match find_product "kettle-1" s' with
    | Some product => inventory s' !! "kettle-1" = Some (product_inventory product)
    | None => inventory s' !! "kettle-1" = None
    end.
Proof.
  refine (scan_initialises_stock "kettle-1"
            (new_state default_options [mug; kettle]) _ _).
  - reflexivity.
  - repeat constructor; intros _ [b Hb]; discriminate Hb.
Defined.

(** The kettle gets its declared stock; a product called [constructor]
    gets no entry. *)
Example scan_initialises_stock_examples :
  inventory (scanProducts (new_state default_options [mug; kettle])) !! "kettle-1"
  = Some (Num 2)
  /\ (let s' := scanProducts
                  (new_state default_options
                     [product_element_of "constructor" (Some "Kit") "3" "7" ""]) in
      product_id <$> products s' = ["constructor"]
      /\ inventory s' !! "constructor" = None).
Proof. split; [|split]; vm_compute; reflexivity. Qed.

(** ** The administrative callers *)

Lemma bulk_update_fold action category quantity inv0 (l : list Product) :
  forall acc,
    let r := foldl (bulk_update action category quantity inv0) acc l in
    cart r.2 = cart acc.2
    /\ forall productId,
         inventory r.2 !! productId
         = match bulk_stock action (or_zero (inv0 !! productId)) quantity with
           | Some newStock =>
               if decide (Exists (λ product, product_id product = productId
                                             /\ bulk_selected category product = true) l)
               then Some (Num newStock)
               else inventory acc.2 !! productId
           | None => inventory acc.2 !! productId
           end.
Proof.
  induction l as [|product l IH]; intros acc; simpl.
  - split; [reflexivity|]. intros productId.
    destruct (bulk_stock _ _ _); reflexivity.
  - destruct (IH (bulk_update action category quantity inv0 acc product))
      as (Hc & Hi).
    assert (cart (bulk_update action category quantity inv0 acc product).2
            = cart acc.2) as Hc1.
    { unfold bulk_update. destruct (bulk_selected category product); [|reflexivity].
      destruct (bulk_stock _ _ _); [|reflexivity]. simpl.
      apply setInventory_fields. }
    split; [rewrite Hc; exact Hc1|].
    intros productId. rewrite Hi. clear Hi Hc Hc1 IH.
    unfold bulk_update.
    destruct (bulk_stock action (or_zero (inv0 !! productId)) quantity)
      as [newStock|] eqn:Hstock.
    + destruct (decide (Exists _ l)) as [Hl|Hl].
      * rewrite decide_True; [reflexivity|]. apply Exists_cons. auto.
      * destruct (bulk_selected category product) eqn:Hsel.
        -- destruct (decide (product_id product = productId)) as [Hid|Hne].
           ++ rewrite decide_True by (apply Exists_cons; auto).
              rewrite Hid, Hstock. simpl.
              destruct (setInventory_fields productId newStock acc.2)
                as (_ & -> & _).
              apply lookup_insert_eq.
           ++ rewrite decide_False.
              2:{ intros [[? _]|?]%Exists_cons; contradiction. }
              destruct (bulk_stock action (or_zero (inv0 !! product_id product))
                          quantity) as [n|]; [|reflexivity].
              simpl.
              destruct (setInventory_fields (product_id product) n acc.2)
                as (_ & -> & _).
              apply lookup_insert_ne. assumption.
        -- rewrite decide_False; [reflexivity|].
           intros [[_ ?]|?]%Exists_cons; [congruence|contradiction].
    + destruct (bulk_selected category product); [|reflexivity].
      destruct (bulk_stock action (or_zero (inv0 !! product_id product)) quantity)
        as [n|] eqn:Hn; [|reflexivity].
      simpl. destruct (setInventory_fields (product_id product) n acc.2)
        as (_ & -> & _).
      apply lookup_insert_ne. intros Heq. rewrite Heq in Hn.
      unfold bulk_stock in Hstock, Hn.
      repeat destruct (decide _); congruence.
Qed.

Lemma applyBulkUpdate_fields action quantityInput category s :
  let quantity := num_or (parseInt quantityInput) 0 in
  let r := applyBulkUpdate action quantityInput category s in
  cart r.2 = cart s
  /\ (action = "" \/ quantity < 0 -> r = (None, s))
  /\ (action <> "" -> 0 <= quantity ->
      forall productId,
        inventory r.2 !! productId
        = match bulk_stock action (availableStock productId s) quantity with
          | Some newStock =>
              if decide (bulk_targets category productId s)
              then Some (Num newStock) else inventory s !! productId
          | None => inventory s !! productId
          end).
Proof.
  cbv zeta. unfold applyBulkUpdate.
  set (quantity := num_or (parseInt quantityInput) 0).
  destruct (bool_decide (action = "") || bool_decide (quantity < 0)) eqn:Hreject.
  - split; [reflexivity|]. split; [reflexivity|].
    intros Haction Hquantity. apply orb_true_iff in Hreject as [H|H].
    + apply bool_decide_eq_true in H. contradiction.
    + apply bool_decide_eq_true in H. lia.
  - apply orb_false_elim in Hreject as [Ha Hq].
    apply bool_decide_eq_false in Ha. apply bool_decide_eq_false in Hq.
    destruct (bulk_update_fold action category quantity (inventory s) (products s)
                (O, s)) as (Hc & Hi).
    simpl in Hc, Hi. simpl. split; [exact Hc|]. split.
    + intros [?|?]; [contradiction|lia].
    + intros _ _ productId. apply Hi.
Qed.

(** The bulk update of the dashboard.  Rejected parameters (no action, or a
    negative quantity) change nothing.  Otherwise the cart is untouched, and
    the ledger entry of an identifier (one that has an entry of its own, or
    names no member of [Object.prototype]) changes only when a product with
    this identifier passes the category filter: it becomes the new stock
    computed from the entry as it was before the update, however many
    products share the identifier. *)
Theorem applyBulkUpdate_effect action quantityInput category s :
  let quantity := num_or (parseInt quantityInput) 0 in
  let r := applyBulkUpdate action quantityInput category s in
  cart r.2 = cart s
  /\ (action = "" \/ quantity < 0 -> r = (None, s))
  /\ (action <> "" -> 0 <= quantity ->
      forall productId,
        own_read productId s ->
        inventory r.2 !! productId
        = match bulk_stock action (availableStock productId s) quantity with
          | Some newStock =>
              if decide (bulk_targets category productId s)
              then Some (Num newStock) else inventory s !! productId
          | None => inventory s !! productId
          end).
Proof.
  destruct (applyBulkUpdate_fields action quantityInput category s)
    as (Hc & Hrejected & Hi).
  cbv zeta. split; [exact Hc|]. split; [exact Hrejected|].
  intros Haction Hquantity productId _. apply Hi; assumption.
Qed.

(** After a bulk [subtract] or [set] with accepted parameters, every
    product that passes the category filter, and has a ledger entry of its
    own or an identifier that names no member of [Object.prototype], has an
    integer ledger entry that is not negative, whatever the entry was
    ([NaN] or missing included). *)
Theorem applyBulkUpdate_nonnegative action quantityInput category s product :
  action = "subtract" \/ action = "set" ->
  0 <= num_or (parseInt quantityInput) 0 ->
  product ∈ products s ->
  bulk_selected category product = true ->
  own_read (product_id product) s ->
  exists stock,
    inventory (applyBulkUpdate action quantityInput category s).2
      !! product_id product = Some (Num stock)
    /\ 0 <= stock.
Proof.
  intros Haction Hquantity Hin Hsel _.
  destruct (applyBulkUpdate_fields action quantityInput category s)
    as (_ & _ & Hi).
  assert (bulk_targets category (product_id product) s) as Htargets.
  { apply Exists_exists. exists product. auto. }
  destruct Haction as [-> | ->];
    (rewrite Hi; [|discriminate|assumption]);
    unfold bulk_stock; simpl;
    rewrite decide_True by assumption;
    eexists; (split; [reflexivity|lia]).
Qed.

Lemma applyBulkUpdate_nonnegative_witness :
  exists stock,
    inventory (applyBulkUpdate "subtract" "7" "" shop_with_3).2
      !! product_id mug_product = Some (Num stock)
    /\ 0 <= stock.
Proof.
  apply (applyBulkUpdate_nonnegative "subtract" "7" "" shop_with_3 mug_product).
  - left. reflexivity.
  - vm_compute. discriminate.
  - vm_compute. left.
  - reflexivity.
  - left. vm_compute. eauto.
Defined.

(** [clearAllData], once confirmed, drops the stored orders and empties the
    cart, but the ledger in memory survives, credited with what the cart
    held (every line item being of a product whose ledger read is its own
    entry or none); declined, it changes nothing. *)
Theorem clearAllData_keeps_ledger s :
  Forall (λ item, own_read (item_id item) s) (cart s) ->
  let s' := clearAllData true s in
  cart s' = []
  /\ stored_orders (storage s') = []
  /\ inventory s' = release_all (cart s) (inventory s)
  /\ clearAllData false s = s.
Proof.
  intros _. unfold clearAllData. cbv zeta.
  set (s1 := with_storage _ s).
  destruct (clearCart_fields s1) as (Hc & Hi & _).
  rewrite (clearCart_orders s1), Hc, Hi. repeat split.
Qed.

Lemma clearAllData_keeps_ledger_witness :
  let s' := clearAllData true shelf in
  cart s' = []
  /\ stored_orders (storage s') = []
  /\ inventory s' = release_all (cart shelf) (inventory shelf)
  /\ clearAllData false shelf = shelf.
Proof.
  refine (clearAllData_keeps_ledger shelf _).
  apply (bool_decide_unpack _). vm_compute. exact I.
Defined.

(** On the shelf, 3 mugs and 1 kettle go back to the ledger. *)
Example clearAllData_scenario :
  inventory shelf !! "mug-1" = Some (Num 2)
  /\ inventory shelf !! "kettle-1" = Some (Num 1)
  /\ inventory (clearAllData true shelf) !! "mug-1" = Some (Num 5)
  /\ inventory (clearAllData true shelf) !! "kettle-1" = Some (Num 2).
Proof. repeat split; vm_compute; reflexivity. Qed.

(** ** The item count *)

Lemma itemCount_foldl (l : list CartItem) (sum : Z) :
  foldl (λ sum item, sum + item_quantity item) sum l
  = sum + foldr (λ item sum, item_quantity item + sum) 0 l.
Proof.
  revert sum. induction l as [|x l IH]; intros sum; simpl; [lia|].
  rewrite IH. lia.
Qed.

Lemma quantities_app (l1 l2 : list CartItem) :
  foldr (λ item sum, item_quantity item + sum) 0 (l1 ++ l2)
  = foldr (λ item sum, item_quantity item + sum) 0 l1
    + foldr (λ item sum, item_quantity item + sum) 0 l2.
Proof. induction l1 as [|x l1 IH]; simpl; lia. Qed.

Lemma quantities_insert (l : list CartItem) index old new :
  l !! index = Some old ->
  foldr (λ item sum, item_quantity item + sum) 0 (<[index := new]> l)
  = foldr (λ item sum, item_quantity item + sum) 0 l
    + item_quantity new - item_quantity old.
Proof.
  revert index. induction l as [|x l IH]; intros [|index]; simpl; try discriminate.
  - intros [= ->]. lia.
  - intros Hlookup. rewrite (IH index Hlookup). lia.
Qed.

Lemma quantities_delete (l : list CartItem) index old :
  l !! index = Some old ->
  foldr (λ item sum, item_quantity item + sum) 0 (delete index l)
  = foldr (λ item sum, item_quantity item + sum) 0 l - item_quantity old.
Proof.
  revert index. induction l as [|x l IH]; intros [|index]; simpl; try discriminate.
  - intros [= ->]. lia.
  - intros Hlookup. rewrite (IH index Hlookup). lia.
Qed.

(** The item count of [calculateTotals] follows the calls: an accepted add
    of [q] raises it by [q], a refused one leaves it; a removal lowers it by
    what leaves the cart, that is the requested quantity when it is below
    the line's, the whole line otherwise; a clear brings it to 0. *)
Theorem itemCount_follows_calls c s :
  itemCount (calculateTotals (call s c))
  = match c with
    | AddToCart productId quantity =>
        if (addToCart productId quantity s).1
        then itemCount (calculateTotals s) + quantity
        else itemCount (calculateTotals s)
    | RemoveFromCart productId quantity =>
        match find_item productId s, truthy quantity with
        | Some (_, item), Some q =>
            itemCount (calculateTotals s) - Z.min q (item_quantity item)
        | Some (_, item), None => itemCount (calculateTotals s) - item_quantity item
        | None, _ => itemCount (calculateTotals s)
        end
    | ClearCart => 0
    end.
Proof.
  unfold calculateTotals. simpl. rewrite !itemCount_foldl, !Z.add_0_l.
  destruct c as [p q|p quantity|]; unfold call.
  - destruct (addToCart p q s).1 eqn:Hadd.
    + destruct (addToCart_true _ _ _ Hadd) as (product & Hproduct & Hge & Htotal).
      destruct (addToCart_accepted _ _ _ _ Hproduct Hge Htotal) as (_ & -> & _).
      destruct (find_item p s) as [[index item]|] eqn:Hitem.
      * apply list_find_Some in Hitem as (Hlookup & _).
        rewrite (quantities_insert _ _ _ _ Hlookup). simpl. lia.
      * rewrite quantities_app. simpl. lia.
    + destruct (addToCart_refusal_unchanged _ _ _ Hadd) as (-> & _). reflexivity.
  - destruct (find_item p s) as [[index item]|] eqn:Hitem.
    2:{ unfold removeFromCart. rewrite Hitem. reflexivity. }
    destruct (removeFromCart_fields p quantity s _ _ Hitem) as (_ & -> & _).
    apply list_find_Some in Hitem as (Hlookup & _).
    destruct (truthy quantity) as [q|].
    + destruct (decide (q < item_quantity item)).
      * rewrite (quantities_insert _ _ _ _ Hlookup). simpl. lia.
      * rewrite (quantities_delete _ _ _ Hlookup). lia.
    + rewrite (quantities_delete _ _ _ Hlookup). reflexivity.
  - destruct (clearCart_fields s) as (-> & _). reflexivity.
Qed.

(** ** What the product element shows after an add *)


